(** * 5-min-starter: the commitment ledger and the session state machine

    A shallow embedding of [src/types.ts] and of the logic functions of
    [src/App.tsx] (the handlers of the [App] component and its two
    persistence effects), followed by the properties of the ledger, the
    session machine, the reward draw and the persistence round trip.

    Conventions of the embedding.
    - Currency amounts, counters and epoch timestamps are JavaScript
      numbers that only ever hold integers here; they are modelled as [Z]
      (exact as long as the values stay below 2^53 in absolute value).
    - Lottery probabilities and the value of [Math.random()] are IEEE-754
      binary64 numbers and are modelled as such, with Rocq's primitive
      [float] (the same format, the same rounding).
    - A React state setter is a function on the component state; a handler
      is the composition of the setters it calls, in the order of the source.
    - [Date.now()] is an input of the handler that reads it: one argument
      per call in the source. *)

From Stdlib Require Import ZArith List Ascii String Bool Lia.
From Stdlib Require Import DecimalString DecimalPos DecimalZ.
From Stdlib Require Import Floats.
Import ListNotations.
Open Scope string_scope.
Open Scope list_scope.
Open Scope Z_scope.

Set Warnings "-inexact-float".

(** ** src/types.ts *)

Inductive RecordType : Type := SUCCESS | FAILURE | LOTTERY.

Record HistoryRecord : Type := mkRecord {
  id : string;
  type : RecordType;
  amount : Z;
  timestamp : Z;
  description : string
}.

Record AppState : Type := mkAppState {
  a_fund : Z;
  a_target : Z;
  a_successCount : Z;
  a_spinsAvailable : Z;
  a_records : list HistoryRecord;
  a_sessionStartTime : option Z
}.

Record LotteryRule : Type := mkRule {
  label : string;
  rule_amount : Z;
  probability : float;
  color : string
}.

(** ** Constants of src/App.tsx *)

Definition TARGET_AMOUNT : Z := 1000.
Definition SESSION_DURATION : Z := 5 * 60.
Definition PLEDGE_AMOUNT : Z := 10.
Definition PENALTY_TOTAL : Z := 20.
Definition RECORD_FAIL_AMOUNT : Z := -10.
Definition RECORD_SUCCESS_AMOUNT : Z := 10.
Definition SPINS_THRESHOLD : Z := 5.

Definition RULE_MINOR : LotteryRule :=
  mkRule "Minor Encouragement" 10 0.4%float "text-blue-500".
Definition RULE_MEDIUM : LotteryRule :=
  mkRule "Medium Surprise" 20 0.3%float "text-green-500".
Definition RULE_BIG : LotteryRule :=
  mkRule "Big Explosion" 40 0.2%float "text-purple-500".
Definition RULE_JACKPOT : LotteryRule :=
  mkRule "Super Jackpot" 60 0.1%float "text-red-500".

Definition LOTTERY_RULES : list LotteryRule :=
  [RULE_MINOR; RULE_MEDIUM; RULE_BIG; RULE_JACKPOT].

(** ** The component state ([useState] cells of [App]) *)

Inductive Modal : Type :=
  | ModalStart | ModalStop | ModalDelete | ModalLottery
  | ModalLotteryRules | ModalLotteryResult | ModalData.

Record State : Type := mkState {
  fund : Z;
  records : list HistoryRecord;
  successCount : Z;
  spinsAvailable : Z;
  sessionStartTime : option Z;
  isTimerRunning : bool;
  timeLeft : Z;
  activeModal : option Modal;
  selectedRecordId : option string;
  lotteryResult : option (Z * string)
}.

(** The values passed to [useState]: the state of a first run. *)
Definition initialState : State :=
  mkState 0 [] 0 0 None false SESSION_DURATION None None None.

(** A handler transforms the state; [a ;; b] runs [a], then [b]. *)
Definition Action : Type := State -> State.

Definition seq (a b : Action) : Action := fun s => b (a s).
Notation "a ;; b" := (seq a b) (at level 61, right associativity).

Definition skip : Action := fun s => s.

(** The setters, in the updater form [setX(prev => f prev)]; a plain
    [setX(v)] is [setX (fun _ => v)]. *)
Definition setFund (f : Z -> Z) : Action := fun s =>
  mkState (f (fund s)) (records s) (successCount s) (spinsAvailable s)
    (sessionStartTime s) (isTimerRunning s) (timeLeft s) (activeModal s)
    (selectedRecordId s) (lotteryResult s).

Definition setRecords (f : list HistoryRecord -> list HistoryRecord) : Action :=
  fun s =>
  mkState (fund s) (f (records s)) (successCount s) (spinsAvailable s)
    (sessionStartTime s) (isTimerRunning s) (timeLeft s) (activeModal s)
    (selectedRecordId s) (lotteryResult s).

Definition setSuccessCount (f : Z -> Z) : Action := fun s =>
  mkState (fund s) (records s) (f (successCount s)) (spinsAvailable s)
    (sessionStartTime s) (isTimerRunning s) (timeLeft s) (activeModal s)
    (selectedRecordId s) (lotteryResult s).

Definition setSpinsAvailable (f : Z -> Z) : Action := fun s =>
  mkState (fund s) (records s) (successCount s) (f (spinsAvailable s))
    (sessionStartTime s) (isTimerRunning s) (timeLeft s) (activeModal s)
    (selectedRecordId s) (lotteryResult s).

Definition setSessionStartTime (v : option Z) : Action := fun s =>
  mkState (fund s) (records s) (successCount s) (spinsAvailable s)
    v (isTimerRunning s) (timeLeft s) (activeModal s)
    (selectedRecordId s) (lotteryResult s).

Definition setIsTimerRunning (v : bool) : Action := fun s =>
  mkState (fund s) (records s) (successCount s) (spinsAvailable s)
    (sessionStartTime s) v (timeLeft s) (activeModal s)
    (selectedRecordId s) (lotteryResult s).

Definition setTimeLeft (v : Z) : Action := fun s =>
  mkState (fund s) (records s) (successCount s) (spinsAvailable s)
    (sessionStartTime s) (isTimerRunning s) v (activeModal s)
    (selectedRecordId s) (lotteryResult s).

Definition setActiveModal (v : option Modal) : Action := fun s =>
  mkState (fund s) (records s) (successCount s) (spinsAvailable s)
    (sessionStartTime s) (isTimerRunning s) (timeLeft s) v
    (selectedRecordId s) (lotteryResult s).

Definition setSelectedRecordId (v : option string) : Action := fun s =>
  mkState (fund s) (records s) (successCount s) (spinsAvailable s)
    (sessionStartTime s) (isTimerRunning s) (timeLeft s) (activeModal s)
    v (lotteryResult s).

Definition setLotteryResult (v : option (Z * string)) : Action := fun s =>
  mkState (fund s) (records s) (successCount s) (spinsAvailable s)
    (sessionStartTime s) (isTimerRunning s) (timeLeft s) (activeModal s)
    (selectedRecordId s) v.

(** [Date.now().toString()]: the decimal numeral of the clock reading. *)
Definition toString (n : Z) : string := NilZero.string_of_int (Z.to_int n).

(** ** Logic functions of [App] *)

(** [addStandardRecord(type, amount, description)]; [t_id] and [t_ts] are
    its two readings of [Date.now()]. *)
Definition addStandardRecord (t_id t_ts : Z)
    (ty : RecordType) (amt : Z) (desc : string) : Action :=
  let newRecord := mkRecord (toString t_id) ty amt t_ts desc in
  setRecords (fun prev => newRecord :: prev) ;;
  setFund (fun prev => prev + amt).

(** [finishTimer()]: the success path. The updater of [setSuccessCount]
    itself calls [setSpinsAvailable] when the new count is a multiple of the
    threshold; [%] is JavaScript's truncating remainder, [Z.rem]. *)
Definition finishTimer (t_id t_ts : Z) : Action :=
  setIsTimerRunning false ;;
  setSessionStartTime None ;;
  setTimeLeft SESSION_DURATION ;;
  setRecords (fun prev =>
    mkRecord (toString t_id) SUCCESS RECORD_SUCCESS_AMOUNT t_ts
      "Focus Success" :: prev) ;;
  (fun s =>
     let newCount := successCount s + 1 in
     (if Z.rem newCount SPINS_THRESHOLD =? 0
      then setSpinsAvailable (fun x => x + 1) else skip)
       (setSuccessCount (fun _ => newCount) s)).

(** [deleteRecord()]. [!selectedRecordId] holds for [null] and for the empty
    string; [records.find] returns the first record with the selected id,
    [filter] drops every record with it. *)
Definition deleteRecord : Action := fun s =>
  match selectedRecordId s with
  | None => s
  | Some sel =>
    if String.eqb sel "" then s
    else
      ((match find (fun r => String.eqb (id r) sel) (records s) with
        | Some record =>
            setFund (fun prev => prev - amount record) ;;
            setRecords (fun prev =>
              filter (fun r => negb (String.eqb (id r) sel)) prev)
        | None => skip
        end) ;;
       setActiveModal None ;;
       setSelectedRecordId None) s
  end.

(** [startTimer()]; [now] is its reading of [Date.now()]. *)
Definition startTimer (now : Z) : Action :=
  setActiveModal None ;;
  setIsTimerRunning true ;;
  setSessionStartTime (Some now) ;;
  setTimeLeft SESSION_DURATION ;;
  setFund (fun prev => prev + PLEDGE_AMOUNT).

(** [stopTimer()]: the give-up path. *)
Definition stopTimer (t_id t_ts : Z) : Action :=
  setActiveModal None ;;
  setIsTimerRunning false ;;
  setSessionStartTime None ;;
  setTimeLeft SESSION_DURATION ;;
  setFund (fun prev => prev - PENALTY_TOTAL) ;;
  setRecords (fun prev =>
    mkRecord (toString t_id) FAILURE RECORD_FAIL_AMOUNT t_ts "Given Up"
      :: prev).

(** The selection loop of [playLottery]: [for (const rule of LOTTERY_RULES)]
    with the running [cumulative] sum and the [break] at the first rule
    whose sum reaches [rand]. Where the loop ends without a [break],
    [selectedRule] keeps the value it was initialised with. *)
Fixpoint selectLoop (rules : list LotteryRule) (rand cumulative : float)
    (selectedRule : LotteryRule) : LotteryRule :=
  match rules with
  | [] => selectedRule
  | rule :: rest =>
    let cumulative := (cumulative + probability rule)%float in
    if (rand <=? cumulative)%float then rule
    else selectLoop rest rand cumulative selectedRule
  end.

(** [let cumulative = 0; let selectedRule = LOTTERY_RULES[0]; for ...]. *)
Definition selectRule (rand : float) : LotteryRule :=
  selectLoop LOTTERY_RULES rand 0%float (hd RULE_MINOR LOTTERY_RULES).

(** [playLottery()]; [rand] is the value of [Math.random()], [t_id] and
    [t_ts] the clock readings of the record it adds. *)
Definition playLottery (rand : float) (t_id t_ts : Z) : Action := fun s =>
  if spinsAvailable s <=? 0 then s
  else
    (setActiveModal None ;;
     setSpinsAvailable (fun prev => prev - 1) ;;
     (let selectedRule := selectRule rand in
      setLotteryResult (Some (rule_amount selectedRule, label selectedRule)) ;;
      addStandardRecord t_id t_ts LOTTERY (rule_amount selectedRule)
        ("Lottery: " ++ label selectedRule)%string ;;
      setActiveModal (Some ModalLotteryResult))) s.

(** The trash button of a history row:
    [setSelectedRecordId(record.id); setActiveModal('delete')]. *)
Definition selectRecord (rid : string) : Action :=
  setSelectedRecordId (Some rid) ;;
  setActiveModal (Some ModalDelete).

(** ** Persistence effects *)

(** What [JSON.parse] returns for a stored document: an object whose fields
    may be missing or [null] ([None]), which is what [??] tests. *)
Record Parsed : Type := mkParsed {
  p_fund : option Z;
  p_target : option Z;
  p_successCount : option Z;
  p_spinsAvailable : option Z;
  p_records : option (list HistoryRecord);
  p_sessionStartTime : option Z
}.

(** The entry of [localStorage] under ['kawaii-starter-data']: no entry
    ([getItem] returns [null]), a text that [JSON.parse] rejects or that is not
    an object, or a JSON object. *)
Inductive Stored : Type :=
  | NoEntry
  | Malformed
  | Document (p : Parsed).

(** [JSON.stringify(data)] read back by [JSON.parse]: numbers, strings and
    arrays of records come back as they were, [null] as [null]. *)
Definition stringify (d : AppState) : Stored :=
  Document (mkParsed (Some (a_fund d)) (Some (a_target d))
    (Some (a_successCount d)) (Some (a_spinsAvailable d))
    (Some (a_records d)) (a_sessionStartTime d)).

(** The object [data] built by the save effect. *)
Definition snapshot (s : State) : AppState :=
  mkAppState (fund s) TARGET_AMOUNT (successCount s) (spinsAvailable s)
    (records s) (sessionStartTime s).

(** The save effect: [localStorage.setItem(key, JSON.stringify(data))]. *)
Definition saveEffect (s : State) : Stored := stringify (snapshot s).

(** [x ?? d]. *)
Definition nullish {A : Type} (x : option A) (d : A) : A :=
  match x with Some v => v | None => d end.

(** The resume branch of the load effect, entered when
    [parsed.sessionStartTime] is truthy; [Math.floor] of the quotient is
    [Z.div]. *)
Definition resumeSession (now start : Z) : Action :=
  let elapsedSeconds := (now - start) / 1000 in
  let remaining := SESSION_DURATION - elapsedSeconds in
  if remaining >? 0 then
    setSessionStartTime (Some start) ;;
    setTimeLeft remaining ;;
    setIsTimerRunning true
  else
    setSessionStartTime None.

(** The load effect, run once on mount; [now] is its reading of
    [Date.now()]. [if (parsed.sessionStartTime)] is false for [null] and
    for the number 0. *)
Definition loadEffect (stored : Stored) (now : Z) : Action :=
  match stored with
  | NoEntry => skip
  | Malformed => skip
  | Document parsed =>
    setFund (fun _ => nullish (p_fund parsed) 0) ;;
    setRecords (fun _ => nullish (p_records parsed) []) ;;
    setSuccessCount (fun _ => nullish (p_successCount parsed) 0) ;;
    setSpinsAvailable (fun _ => nullish (p_spinsAvailable parsed) 0) ;;
    match p_sessionStartTime parsed with
    | Some start => if start =? 0 then skip else resumeSession now start
    | None => skip
    end
  end.

(** A reload of the application: the component is mounted in its initial
    state and the load effect reads the store. *)
Definition reload (stored : Stored) (now : Z) : State :=
  loadEffect stored now initialState.

(** ** Controller operations and their sequences *)

Inductive Op : Type :=
  | OpStart (now : Z)
  | OpAbandon (t_id t_ts : Z)
  | OpExpire (t_id t_ts : Z)
  | OpLottery (rand : float) (t_id t_ts : Z)
  | OpDelete (rid : string).

(** One operation; a deletion is the selection of a row followed by the
    confirmation in the dialog. *)
Definition step (o : Op) : Action :=
  match o with
  | OpStart now => startTimer now
  | OpAbandon t_id t_ts => stopTimer t_id t_ts
  | OpExpire t_id t_ts => finishTimer t_id t_ts
  | OpLottery rand t_id t_ts => playLottery rand t_id t_ts
  | OpDelete rid => selectRecord rid ;; deleteRecord
  end.

Fixpoint run (ops : list Op) (s : State) : State :=
  match ops with
  | [] => s
  | o :: rest => run rest (step o s)
  end.

(** The sum of the [amount] fields of a list of records. *)
Definition sumAmounts (rs : list HistoryRecord) : Z :=
  fold_right (fun r acc => amount r + acc) 0 rs.

(** The pledge of the session in progress, if there is one. *)
Definition activePledge (s : State) : Z :=
  match sessionStartTime s with
  | Some _ => PLEDGE_AMOUNT
  | None => 0
  end.

(** The ledger invariant: the fund is the sum of the recorded amounts plus
    the pledge of the active session. *)
Definition reconciled (s : State) : Prop :=
  fund s = sumAmounts (records s) + activePledge s.

(** The value of [cumulative] after the first [n] iterations of the loop
    over [rules], started at [c0]. *)
Definition runningSum (rules : list LotteryRule) (c0 : float) (n : nat)
    : float :=
  fold_left (fun acc rule => (acc + probability rule)%float)
    (firstn n rules) c0.

(** The running cumulative probability of [playLottery] after [n] tiers. *)
Definition cumulative (n : nat) : float := runningSum LOTTERY_RULES 0%float n.

(** A successful session: a start and the expiry of its countdown. *)
Definition successfulSession (t : Z * Z * Z) : list Op :=
  let '(now, t_id, t_ts) := t in [OpStart now; OpExpire t_id t_ts].

(** Successful sessions one after the other, with the clock readings of
    each. *)
Definition successfulSessions (ts : list (Z * Z * Z)) : list Op :=
  flat_map successfulSession ts.

(** When the operations may be invoked for the ledger to stay reconciled:
    a start while no session is active, an abandon or an expiry while one
    is, a draw at any time, a deletion by an id that at most one record of
    the history carries. *)
Definition sessionActive (s : State) : bool :=
  match sessionStartTime s with
  | Some _ => true
  | None => false
  end.

Definition idCount (rid : string) (rs : list HistoryRecord) : nat :=
  List.length (filter (fun r => String.eqb (id r) rid) rs).

Definition enabled (o : Op) (s : State) : bool :=
  match o with
  | OpStart _ => negb (sessionActive s)
  | OpAbandon _ _ => sessionActive s
  | OpExpire _ _ => sessionActive s
  | OpLottery _ _ _ => true
  | OpDelete rid => (idCount rid (records s) <=? 1)%nat
  end.

Fixpoint admissible (ops : list Op) (s : State) : bool :=
  match ops with
  | [] => true
  | o :: rest => enabled o s && admissible rest (step o s)
  end.

(** ** The countdown and its display *)




(** [str.padStart(targetLength, padString)]: [str] when it is long enough
    or the pad is empty, otherwise the pad repeated and cut to the missing
    length, then [str]. *)
Definition padStart (targetLength : nat) (padString str : string) : string :=
  let len := String.length str in
  if ((targetLength <=? len)%nat || (String.length padString =? 0)%nat)%bool
  then str
  else
    let fillLen := (targetLength - len)%nat in
    (substring 0 fillLen (String.concat "" (repeat padString fillLen))
     ++ str)%string.

(** [formatTime(seconds)]: minutes and seconds, two digits each.
    [Math.floor(seconds / 60)] is [Z.div], [seconds % 60] is [Z.rem]. *)
Definition formatTime (seconds : Z) : string :=
  let m := padStart 2 "0" (toString (seconds / 60)) in
  let s := padStart 2 "0" (toString (Z.rem seconds 60)) in
  (m ++ ":" ++ s)%string.

(** Reading a decimal numeral back, to state what a displayed time
    says. *)
Definition readNumber (str : string) : option Z :=
  option_map Z.of_int (NilZero.int_of_string str).

(** Whether a number is shown by [padStart(2, '0')] as two characters that
    read back as the number. *)
Definition wellPadded (n : Z) : bool :=
  let shown := padStart 2 "0" (toString n) in
  ((String.length shown =? 2)%nat
   && match readNumber shown with
      | Some m => m =? n
      | None => false
      end)%bool.

(** ** Measures on states and on sequences of operations *)

(** By how much the fund exceeds what the history and the active pledge
    account for; 0 in a reconciled state. *)
Definition drift (s : State) : Z :=
  fund s - sumAmounts (records s) - activePledge s.

(** The amounts of the records that carry the id [rid]. *)
Definition sharedAmounts (rid : string) (rs : list HistoryRecord) : Z :=
  sumAmounts (filter (fun r => String.eqb (id r) rid) rs).

(** The number of expiries in a sequence of operations. *)
Definition expiries (ops : list Op) : nat :=
  List.length
    (filter (fun o => match o with OpExpire _ _ => true | _ => false end) ops).

(** The ids of a history. *)
Definition ids (rs : list HistoryRecord) : list string := map id rs.

Definition hasId (rid : string) (rs : list HistoryRecord) : bool :=
  existsb (fun r => String.eqb (id r) rid) rs.

(** The session part of [enabled]: the operations other than a start, an
    abandon and an expiry are not constrained. *)
Definition sessionGuard (o : Op) (s : State) : bool :=
  match o with
  | OpStart _ => negb (sessionActive s)
  | OpAbandon _ _ => sessionActive s
  | OpExpire _ _ => sessionActive s
  | OpLottery _ _ _ => true
  | OpDelete _ => true
  end.

(** The clock reading that gives a new record its id is fresh when no
    record of the history has that id already. *)
Definition freshId (o : Op) (s : State) : bool :=
  match o with
  | OpStart _ => true
  | OpAbandon t_id _ => negb (hasId (toString t_id) (records s))
  | OpExpire t_id _ => negb (hasId (toString t_id) (records s))
  | OpLottery _ t_id _ => negb (hasId (toString t_id) (records s))
  | OpDelete _ => true
  end.

(** A sequence whose session operations come in order and whose clock
    readings are fresh at each step. *)
Fixpoint orderly (ops : list Op) (s : State) : bool :=
  match ops with
  | [] => true
  | o :: rest => sessionGuard o s && freshId o s && orderly rest (step o s)
  end.

(** What the load effect makes of a stored [sessionStartTime] at time
    [now]: the start time, the running flag and the time left that the
    component ends up with. *)
Definition sessionOnLoad (now : Z) (stored : option Z)
    : option Z * bool * Z :=
  match stored with
  | Some start =>
    if start =? 0 then (None, false, SESSION_DURATION)
    else
      let remaining := SESSION_DURATION - (now - start) / 1000 in
      if remaining >? 0 then (Some start, true, remaining)
      else (None, false, SESSION_DURATION)
  | None => (None, false, SESSION_DURATION)
  end.

(** ** Proof support *)

(** Opens the handlers into their chain of setters and reads the fields of
    the resulting state off the chain (the setters are not unfolded first:
    each one would copy the state it is applied to). *)
Ltac handlers :=
  unfold startTimer, stopTimer, finishTimer, addStandardRecord, selectRecord,
    resumeSession, seq, skip in *;
  cbn beta iota zeta delta
    [setFund setRecords setSuccessCount setSpinsAvailable
     setSessionStartTime setIsTimerRunning setTimeLeft setActiveModal
     setSelectedRecordId setLotteryResult
     fund records successCount spinsAvailable sessionStartTime
     isTimerRunning timeLeft activeModal selectedRecordId lotteryResult] in *.

(** The constants as numbers, for [lia]. *)
Ltac constants :=
  unfold TARGET_AMOUNT, SESSION_DURATION, PLEDGE_AMOUNT, PENALTY_TOTAL,
    RECORD_FAIL_AMOUNT, RECORD_SUCCESS_AMOUNT, SPINS_THRESHOLD in *.

(** The equations of [run] and [step], for rewriting: the states stay
    written as the handlers applied to the state before. *)
Lemma run_nil (s : State) : run [] s = s.
Proof. reflexivity. Qed.

Lemma run_cons (o : Op) (rest : list Op) (s : State) :
  run (o :: rest) s = run rest (step o s).
Proof. reflexivity. Qed.

Lemma step_start (now : Z) (s : State) :
  step (OpStart now) s = startTimer now s.
Proof. reflexivity. Qed.

Lemma step_abandon (t_id t_ts : Z) (s : State) :
  step (OpAbandon t_id t_ts) s = stopTimer t_id t_ts s.
Proof. reflexivity. Qed.

Lemma step_expire (t_id t_ts : Z) (s : State) :
  step (OpExpire t_id t_ts) s = finishTimer t_id t_ts s.
Proof. reflexivity. Qed.

Lemma step_lottery (rand : float) (t_id t_ts : Z) (s : State) :
  step (OpLottery rand t_id t_ts) s = playLottery rand t_id t_ts s.
Proof. reflexivity. Qed.

Lemma step_delete (rid : string) (s : State) :
  step (OpDelete rid) s = deleteRecord (selectRecord rid s).
Proof. reflexivity. Qed.

Create Rewrite HintDb run_eqs.
#[local] Hint Rewrite run_nil run_cons step_start step_abandon step_expire
  step_lottery step_delete : run_eqs.

(** *** Start, abandon, expire *)

Lemma startTimer_fields (now : Z) (s : State) :
  fund (startTimer now s) = fund s + PLEDGE_AMOUNT
  /\ records (startTimer now s) = records s
  /\ successCount (startTimer now s) = successCount s
  /\ spinsAvailable (startTimer now s) = spinsAvailable s
  /\ sessionStartTime (startTimer now s) = Some now
  /\ isTimerRunning (startTimer now s) = true
  /\ timeLeft (startTimer now s) = SESSION_DURATION.
Proof. handlers. repeat split. Qed.

Lemma stopTimer_fields (t_id t_ts : Z) (s : State) :
  fund (stopTimer t_id t_ts s) = fund s - PENALTY_TOTAL
  /\ records (stopTimer t_id t_ts s) =
       mkRecord (toString t_id) FAILURE RECORD_FAIL_AMOUNT t_ts "Given Up"
         :: records s
  /\ successCount (stopTimer t_id t_ts s) = successCount s
  /\ spinsAvailable (stopTimer t_id t_ts s) = spinsAvailable s
  /\ sessionStartTime (stopTimer t_id t_ts s) = None
  /\ isTimerRunning (stopTimer t_id t_ts s) = false
  /\ timeLeft (stopTimer t_id t_ts s) = SESSION_DURATION.
Proof. handlers. repeat split. Qed.

Lemma finishTimer_fields (t_id t_ts : Z) (s : State) :
  fund (finishTimer t_id t_ts s) = fund s
  /\ records (finishTimer t_id t_ts s) =
       mkRecord (toString t_id) SUCCESS RECORD_SUCCESS_AMOUNT t_ts
         "Focus Success" :: records s
  /\ successCount (finishTimer t_id t_ts s) = successCount s + 1
  /\ spinsAvailable (finishTimer t_id t_ts s) =
       (if Z.rem (successCount s + 1) SPINS_THRESHOLD =? 0
        then spinsAvailable s + 1 else spinsAvailable s)
  /\ sessionStartTime (finishTimer t_id t_ts s) = None
  /\ isTimerRunning (finishTimer t_id t_ts s) = false
  /\ timeLeft (finishTimer t_id t_ts s) = SESSION_DURATION.
Proof.
  handlers.
  destruct (Z.rem (successCount s + 1) SPINS_THRESHOLD =? 0);
    handlers; repeat split.
Qed.

(** C5: from any state, and so from any Idle one, [startTimer] followed at
    once by [stopTimer] lowers the fund by exactly 10 (the start adds the
    pledge of 10 and no record, the stop subtracts 20), puts exactly one new
    record in front of the history, a FAILURE of amount -10 described as
    "Given Up", and leaves the machine Idle with the full session time. *)
Theorem start_then_abandon (s : State) (now t_id t_ts : Z) :
  let s1 := startTimer now s in
  let s2 := stopTimer t_id t_ts s1 in
  fund s1 = fund s + 10
  /\ records s1 = records s
  /\ fund s2 = fund s1 - 20
  /\ fund s2 = fund s - 10
  /\ records s2 = mkRecord (toString t_id) FAILURE (-10) t_ts "Given Up"
                    :: records s
  /\ isTimerRunning s2 = false
  /\ sessionStartTime s2 = None
  /\ timeLeft s2 = SESSION_DURATION.
Proof.
  intros s1 s2. subst s1 s2. handlers. constants.
  repeat split; lia.
Qed.

(** C6: from any state, and so from any Idle one, [startTimer] followed by
    [finishTimer] raises the fund by exactly 10, all of it at the start
    (the expiry leaves the fund as it is), puts exactly one new record in
    front of the history, a SUCCESS of amount +10 described as
    "Focus Success", raises successCount by 1, and raises spinsAvailable by
    1 when the new successCount is a multiple of 5 and leaves it unchanged
    otherwise; the machine is Idle again. *)
Theorem start_then_expire (s : State) (now t_id t_ts : Z) :
  let s1 := startTimer now s in
  let s2 := finishTimer t_id t_ts s1 in
  fund s2 = fund s1
  /\ fund s2 = fund s + 10
  /\ records s2 = mkRecord (toString t_id) SUCCESS 10 t_ts "Focus Success"
                    :: records s
  /\ successCount s2 = successCount s + 1
  /\ ((5 | successCount s2) -> spinsAvailable s2 = spinsAvailable s + 1)
  /\ (~ (5 | successCount s2) -> spinsAvailable s2 = spinsAvailable s)
  /\ isTimerRunning s2 = false
  /\ sessionStartTime s2 = None.
Proof.
  intros s1 s2.
  destruct (startTimer_fields now s) as (Hf & Hr & Hc & Hsp & _).
  destruct (finishTimer_fields t_id t_ts s1)
    as (Gf & Gr & Gc & Gsp & Gt & Gi & _).
  fold s1 in Hf, Hr, Hc, Hsp. fold s2 in Gf, Gr, Gc, Gsp, Gt, Gi.
  rewrite Gf, Gr, Gc, Gsp, Gt, Gi, Hf, Hr, Hc, Hsp. constants.
  repeat split.
  - intros Hd. apply Z.rem_divide in Hd; [|lia].
    rewrite Hd. reflexivity.
  - intros Hd.
    destruct (Z.eqb_spec (Z.rem (successCount s + 1) 5) 0) as [E|E];
      [|reflexivity].
    exfalso. apply Hd. apply Z.rem_divide; [lia|exact E].
Qed.

(** The start-then-expire property at the fifth success of a first run. *)
Lemma start_then_expire_witness :
  let s := run [OpStart 1; OpExpire 2 2; OpStart 3; OpExpire 4 4;
                OpStart 5; OpExpire 6 6; OpStart 7; OpExpire 8 8]
             initialState in
  let s2 := finishTimer 10 10 (startTimer 9 s) in
  fund s2 = fund s + 10 /\ successCount s2 = 5 /\ spinsAvailable s2 = 1.
Proof.
  intros s s2.
  destruct (start_then_expire s 9 10 10) as (_ & Hf & _ & Hc & Hy & _).
  split; [exact Hf|]. split; [exact Hc|].
  apply Hy. exists 1. reflexivity.
Defined.

(** C10: [startTimer] has no guard. In a state that is already Running it
    adds the pledge of 10 to the fund once more and replaces
    sessionStartTime by the current time; the history, successCount and
    spinsAvailable are as before, so the session that was running is neither
    resolved nor recorded. *)
Theorem startTimer_while_running (s : State) (now : Z) :
  isTimerRunning s = true ->
  let s' := startTimer now s in
  fund s' = fund s + PLEDGE_AMOUNT
  /\ sessionStartTime s' = Some now
  /\ isTimerRunning s' = true
  /\ records s' = records s
  /\ successCount s' = successCount s
  /\ spinsAvailable s' = spinsAvailable s.
Proof.
  intros _ s'. subst s'. handlers. repeat split.
Qed.

(** A second start, 2 seconds into a running session of a first run: the
    fund holds two pledges and the first start time is lost. *)
Lemma startTimer_while_running_witness :
  let s := startTimer 1000 initialState in
  isTimerRunning s = true
  /\ fund (startTimer 3000 s) = 20
  /\ sessionStartTime (startTimer 3000 s) = Some 3000
  /\ records (startTimer 3000 s) = [].
Proof.
  intros s.
  destruct (startTimer_while_running s 3000 eq_refl) as (Hf & Hs & _ & Hr & _).
  split; [reflexivity|]. split; [exact Hf|]. split; [exact Hs|exact Hr].
Defined.

(** *** The spin gate *)

Lemma playLottery_no_spin (rand : float) (t_id t_ts : Z) (s : State) :
  spinsAvailable s <= 0 -> playLottery rand t_id t_ts s = s.
Proof.
  intros H. unfold playLottery.
  destruct (Z.leb_spec (spinsAvailable s) 0); [reflexivity|lia].
Qed.

Lemma playLottery_fields (rand : float) (t_id t_ts : Z) (s : State) :
  0 < spinsAvailable s ->
  let s' := playLottery rand t_id t_ts s in
  let rule := selectRule rand in
  fund s' = fund s + rule_amount rule
  /\ records s' =
       mkRecord (toString t_id) LOTTERY (rule_amount rule) t_ts
         ("Lottery: " ++ label rule)%string :: records s
  /\ successCount s' = successCount s
  /\ spinsAvailable s' = spinsAvailable s - 1
  /\ sessionStartTime s' = sessionStartTime s
  /\ isTimerRunning s' = isTimerRunning s
  /\ lotteryResult s' = Some (rule_amount rule, label rule).
Proof.
  intros H s' rule. subst s' rule. unfold playLottery.
  destruct (Z.leb_spec (spinsAvailable s) 0); [lia|].
  handlers. repeat split.
Qed.

(** C8: [playLottery] with spinsAvailable at zero or below returns at once
    and leaves the whole state, so fund, records, successCount and
    spinsAvailable, as it was; with spinsAvailable above zero it lowers
    spinsAvailable by exactly 1. A spinsAvailable that is not negative is
    therefore not negative after any spin. *)
Theorem spin_gate (s : State) (rand : float) (t_id t_ts : Z) :
  let s' := playLottery rand t_id t_ts s in
  (spinsAvailable s <= 0 ->
     s' = s /\ fund s' = fund s /\ records s' = records s
     /\ successCount s' = successCount s
     /\ spinsAvailable s' = spinsAvailable s)
  /\ (0 < spinsAvailable s -> spinsAvailable s' = spinsAvailable s - 1)
  /\ (0 <= spinsAvailable s -> 0 <= spinsAvailable s').
Proof.
  intros s'. subst s'. repeat split.
  1-5: rewrite playLottery_no_spin by assumption; reflexivity.
  - intros H. apply (playLottery_fields rand t_id t_ts s H).
  - intros H. destruct (Z.leb_spec (spinsAvailable s) 0) as [L|L].
    + rewrite playLottery_no_spin by assumption. exact H.
    + destruct (playLottery_fields rand t_id t_ts s L) as (_ & _ & _ & E & _).
      rewrite E. lia.
Qed.

(** The gate on a first run (no spin: nothing happens) and after five
    successes (one spin: it is consumed). *)
Lemma spin_gate_witness :
  playLottery 0.5%float 7 7 initialState = initialState
  /\ (let s := setSpinsAvailable (fun _ => 1) initialState in
      spinsAvailable (playLottery 0.5%float 7 7 s) = 0).
Proof.
  split.
  - destruct (spin_gate initialState 0.5%float 7 7) as (H & _).
    apply H. cbn. lia.
  - intros s.
    destruct (spin_gate s 0.5%float 7 7) as (_ & H & _).
    apply H. cbn. lia.
Defined.

(** *** Spin credits *)

(** One successful session keeps spinsAvailable at one fifth of
    successCount, rounded down, and adds one success. *)
Lemma successfulSession_counts (now t_id t_ts : Z) (s : State) :
  0 <= successCount s ->
  spinsAvailable s = successCount s / SPINS_THRESHOLD ->
  successCount (finishTimer t_id t_ts (startTimer now s)) = successCount s + 1
  /\ spinsAvailable (finishTimer t_id t_ts (startTimer now s))
     = successCount (finishTimer t_id t_ts (startTimer now s))
       / SPINS_THRESHOLD.
Proof.
  intros Hc Hs.
  destruct (startTimer_fields now s) as (_ & _ & Hc1 & Hs1 & _).
  destruct (finishTimer_fields t_id t_ts (startTimer now s))
    as (_ & _ & Gc & Gs & _).
  rewrite Gs, Gc, Hc1, Hs1, Hs. split; [reflexivity|]. constants.
  destruct (Z.eqb_spec (Z.rem (successCount s + 1) 5) 0) as [E|E];
    rewrite Z.rem_mod_nonneg in E by lia;
    pose proof (Z.div_mod (successCount s + 1) 5);
    pose proof (Z.mod_pos_bound (successCount s + 1) 5);
    pose proof (Z.div_mod (successCount s) 5);
    pose proof (Z.mod_pos_bound (successCount s) 5); nia.
Qed.

Lemma run_successfulSessions_cons (now t_id t_ts : Z)
    (ts : list (Z * Z * Z)) (s : State) :
  run (successfulSessions ((now, t_id, t_ts) :: ts)) s
  = run (successfulSessions ts) (finishTimer t_id t_ts (startTimer now s)).
Proof.
  unfold successfulSessions.
  cbn [flat_map successfulSession app].
  autorewrite with run_eqs. reflexivity.
Qed.

(** Any number of them does: one success more per session. *)
Lemma successfulSessions_counts (ts : list (Z * Z * Z)) (s : State) :
  0 <= successCount s ->
  spinsAvailable s = successCount s / SPINS_THRESHOLD ->
  successCount (run (successfulSessions ts) s)
    = successCount s + Z.of_nat (List.length ts)
  /\ spinsAvailable (run (successfulSessions ts) s)
     = successCount (run (successfulSessions ts) s) / SPINS_THRESHOLD.
Proof.
  revert s. induction ts as [|[[now t_id] t_ts] ts IH]; intros s Hc Hs.
  - cbn [successfulSessions flat_map run List.length Z.of_nat].
    split; [lia|exact Hs].
  - rewrite run_successfulSessions_cons.
    destruct (successfulSession_counts now t_id t_ts s Hc Hs) as (Gc & Gs).
    destruct (IH (finishTimer t_id t_ts (startTimer now s))) as (Ic & Is);
      [lia|exact Gs|].
    split; [|exact Is].
    rewrite Ic, Gc. cbn [List.length]. lia.
Qed.

Lemma deleteRecord_counters (s : State) :
  successCount (deleteRecord s) = successCount s
  /\ spinsAvailable (deleteRecord s) = spinsAvailable s.
Proof.
  unfold deleteRecord.
  destruct (selectedRecordId s) as [sel|]; [|split; reflexivity].
  destruct (String.eqb sel ""); [split; reflexivity|].
  destruct (find _ (records s)); handlers; split; reflexivity.
Qed.

Lemma deleteRecord_found (s : State) (sel : string) (r : HistoryRecord) :
  selectedRecordId s = Some sel ->
  sel <> "" ->
  find (fun x => String.eqb (id x) sel) (records s) = Some r ->
  fund (deleteRecord s) = fund s - amount r
  /\ records (deleteRecord s) =
       filter (fun x => negb (String.eqb (id x) sel)) (records s).
Proof.
  intros Hsel Hne Hfind. unfold deleteRecord. rewrite Hsel.
  destruct (String.eqb_spec sel "") as [E|_]; [contradiction|].
  rewrite Hfind. handlers. split; reflexivity.
Qed.

(** C7: on a first run, 5 successful sessions leave spinsAvailable at 1 and
    10 leave it at 2. Deleting a record, a SUCCESS record in particular,
    changes neither spinsAvailable nor successCount, although it takes the
    record's amount back out of the fund. *)
Theorem spin_credits :
  (forall ts, List.length ts = 5%nat ->
     spinsAvailable (run (successfulSessions ts) initialState) = 1
     /\ successCount (run (successfulSessions ts) initialState) = 5)
  /\ (forall ts, List.length ts = 10%nat ->
     spinsAvailable (run (successfulSessions ts) initialState) = 2
     /\ successCount (run (successfulSessions ts) initialState) = 10)
  /\ (forall s r,
     find (fun x => String.eqb (id x) (id r)) (records s) = Some r ->
     type r = SUCCESS ->
     id r <> "" ->
     let s' := step (OpDelete (id r)) s in
     spinsAvailable s' = spinsAvailable s
     /\ successCount s' = successCount s
     /\ fund s' = fund s - amount r
     /\ ~ In r (records s')).
Proof.
  assert (K : forall ts,
    successCount (run (successfulSessions ts) initialState)
      = Z.of_nat (List.length ts)
    /\ spinsAvailable (run (successfulSessions ts) initialState)
      = Z.of_nat (List.length ts) / 5).
  { intros ts.
    destruct (successfulSessions_counts ts initialState) as (Hc & Hs);
      [cbn; lia|reflexivity|].
    cbn [successCount initialState] in Hc. rewrite Hs, Hc.
    split; reflexivity. }
  split; [|split].
  - intros ts L. destruct (K ts) as (Hc & Hs). rewrite Hc, Hs, L.
    split; reflexivity.
  - intros ts L. destruct (K ts) as (Hc & Hs). rewrite Hc, Hs, L.
    split; reflexivity.
  - intros s r Hfind _ Hne s'. subst s'.
    cbn [step]. unfold seq.
    set (s1 := selectRecord (id r) s).
    assert (Hsel : selectedRecordId s1 = Some (id r)) by reflexivity.
    assert (Hrec : records s1 = records s) by reflexivity.
    destruct (deleteRecord_counters s1) as (Hc & Hs).
    rewrite <- Hrec in Hfind.
    destruct (deleteRecord_found s1 (id r) r Hsel Hne Hfind) as (Hf & Hr).
    rewrite Hc, Hs, Hf, Hr. repeat split.
    intros Hin. apply filter_In in Hin. destruct Hin as (_ & Hin).
    rewrite String.eqb_refl in Hin. discriminate.
Qed.

(** Five and ten sessions with concrete clock readings, and the deletion of
    the record of the fifth. *)
Lemma spin_credits_witness :
  let five := [(1, 2, 2); (3, 4, 4); (5, 6, 6); (7, 8, 8); (9, 10, 10)] in
  let s := run (successfulSessions five) initialState in
  let r := mkRecord "10" SUCCESS 10 10 "Focus Success" in
  spinsAvailable s = 1
  /\ spinsAvailable (run (successfulSessions (five ++ five)) initialState) = 2
  /\ spinsAvailable (step (OpDelete "10") s) = 1
  /\ successCount (step (OpDelete "10") s) = 5
  /\ fund (step (OpDelete "10") s) = fund s - 10.
Proof.
  intros five s r.
  destruct spin_credits as (H5 & H10 & Hdel).
  split; [apply (H5 five); reflexivity|].
  split; [apply (H10 (five ++ five)); reflexivity|].
  destruct (Hdel s r) as (Hs & Hc & Hf & _);
    [reflexivity|reflexivity|discriminate|].
  unfold r in Hs, Hc, Hf. cbn [id amount] in Hs, Hc, Hf.
  split; [rewrite Hs; apply (H5 five); reflexivity|].
  split; [rewrite Hc; apply (H5 five); reflexivity|exact Hf].
Defined.

(** *** Deletion and shared ids *)

(** The record a handler creates on clock reading [t] has the id
    [toString t], whatever the handler: two records created on the same
    reading share their id. *)
Lemma new_record_ids (t ts1 ts2 ts3 : Z) (rand : float) (s1 s2 s3 : State) :
  0 < spinsAvailable s3 ->
  option_map id (hd_error (records (finishTimer t ts1 s1))) = Some (toString t)
  /\ option_map id (hd_error (records (stopTimer t ts2 s2))) = Some (toString t)
  /\ option_map id (hd_error (records (playLottery rand t ts3 s3)))
     = Some (toString t).
Proof.
  intros H.
  destruct (finishTimer_fields t ts1 s1) as (_ & E1 & _).
  destruct (stopTimer_fields t ts2 s2) as (_ & E2 & _).
  destruct (playLottery_fields rand t ts3 s3 H) as (_ & E3 & _).
  rewrite E1, E2, E3. repeat split.
Qed.

Lemma find_first (sel : string) (l1 l2 : list HistoryRecord)
    (r : HistoryRecord) :
  (forall x, In x l1 -> id x <> sel) ->
  id r = sel ->
  find (fun x => String.eqb (id x) sel) (l1 ++ r :: l2) = Some r.
Proof.
  intros Hl1 Hr. induction l1 as [|a l1 IH]; cbn.
  - rewrite Hr, String.eqb_refl. reflexivity.
  - destruct (String.eqb_spec (id a) sel) as [E|_].
    + exfalso. apply (Hl1 a); [left; reflexivity|exact E].
    + apply IH. intros x Hx. apply Hl1. right. exact Hx.
Qed.

(** C9: the id of a new record is the decimal text of the clock reading, so
    a failure and a success created on one reading share it. [deleteRecord]
    takes from the fund the amount of the first record that has the selected
    id and removes every record that has it: where two records [r1] (the
    first with that id) and [r2] share the selected id, both are gone
    afterwards and the fund has gone down by the amount of [r1] alone. *)
Theorem delete_shared_id (s : State) (sel : string)
    (r1 r2 : HistoryRecord) (l1 l2 l3 : list HistoryRecord) :
  selectedRecordId s = Some sel ->
  sel <> "" ->
  records s = l1 ++ r1 :: l2 ++ r2 :: l3 ->
  (forall x, In x l1 -> id x <> sel) ->
  id r1 = sel ->
  id r2 = sel ->
  (forall t ts1 ts2 s1 s2,
     option_map id (hd_error (records (finishTimer t ts1 s1)))
     = option_map id (hd_error (records (stopTimer t ts2 s2))))
  /\ records (deleteRecord s) =
       filter (fun x => negb (String.eqb (id x) sel)) (records s)
  /\ ~ In r1 (records (deleteRecord s))
  /\ ~ In r2 (records (deleteRecord s))
  /\ (forall x, In x (records (deleteRecord s)) -> id x <> sel)
  /\ fund (deleteRecord s) = fund s - amount r1.
Proof.
  intros Hsel Hne Hrec Hl1 H1 H2.
  assert (Hfind : find (fun x => String.eqb (id x) sel) (records s) = Some r1).
  { rewrite Hrec. apply find_first; assumption. }
  destruct (deleteRecord_found s sel r1 Hsel Hne Hfind) as (Hf & Hr).
  assert (Hgone : forall x, In x (records (deleteRecord s)) -> id x <> sel).
  { intros x Hx. rewrite Hr in Hx. apply filter_In in Hx.
    destruct Hx as (_ & Hx).
    destruct (String.eqb_spec (id x) sel); [discriminate|assumption]. }
  split.
  { intros t ts1 ts2 s1 s2.
    destruct (finishTimer_fields t ts1 s1) as (_ & E1 & _).
    destruct (stopTimer_fields t ts2 s2) as (_ & E2 & _).
    rewrite E1, E2. reflexivity. }
  split; [exact Hr|].
  split; [intros Hin; exact (Hgone r1 Hin H1)|].
  split; [intros Hin; exact (Hgone r2 Hin H2)|].
  split; [exact Hgone|exact Hf].
Qed.

(** A session that succeeds and a session that is given up, their records
    created on the same clock reading 5000: both records carry the id
    "5000"; deleting by that id empties the history and reverses the
    failure's -10 alone, which moves a reconciled fund of 0 to 10. *)
Lemma delete_shared_id_witness :
  let s := run [OpStart 1000; OpExpire 5000 5000;
                OpStart 5000; OpAbandon 5000 5000] initialState in
  let s' := deleteRecord (selectRecord "5000" s) in
  fund s = 0 /\ List.length (records s) = 2%nat
  /\ records s' = [] /\ fund s' = 10.
Proof.
  intros s s'.
  pose (r1 := mkRecord "5000" FAILURE (-10) 5000 "Given Up").
  pose (r2 := mkRecord "5000" SUCCESS 10 5000 "Focus Success").
  destruct (delete_shared_id (selectRecord "5000" s) "5000" r1 r2 [] [] [])
    as (_ & Hr & _ & _ & _ & Hf).
  - reflexivity.
  - discriminate.
  - reflexivity.
  - intros x [].
  - reflexivity.
  - reflexivity.
  - subst s'. split; [reflexivity|]. split; [reflexivity|].
    split; [rewrite Hr; reflexivity|rewrite Hf; reflexivity].
Defined.

(** *** Persistence: resume on load, save then load *)

(** Whole elapsed seconds against the session duration, in milliseconds. *)
Lemma elapsed_below_duration (now start : Z) :
  (now - start) / 1000 < SESSION_DURATION <-> now - start < 300000.
Proof.
  constants.
  pose proof (Z.div_mod (now - start) 1000).
  pose proof (Z.mod_pos_bound (now - start) 1000).
  lia.
Qed.

(** What the load effect restores before it looks at the session. *)
Lemma reload_document (parsed : Parsed) (now : Z) :
  let s' := reload (Document parsed) now in
  fund s' = nullish (p_fund parsed) 0
  /\ records s' = nullish (p_records parsed) []
  /\ successCount s' = nullish (p_successCount parsed) 0
  /\ spinsAvailable s' = nullish (p_spinsAvailable parsed) 0.
Proof.
  intros s'. subst s'. unfold reload, loadEffect.
  destruct (p_sessionStartTime parsed) as [start|].
  - destruct (start =? 0).
    + handlers. repeat split.
    + unfold resumeSession.
      destruct (SESSION_DURATION - (now - start) / 1000 >? 0);
        handlers; repeat split.
  - handlers. repeat split.
Qed.

Lemma reload_session (parsed : Parsed) (now start : Z) :
  p_sessionStartTime parsed = Some start ->
  start <> 0 ->
  let remaining := SESSION_DURATION - (now - start) / 1000 in
  let s' := reload (Document parsed) now in
  (0 < remaining ->
     sessionStartTime s' = Some start /\ timeLeft s' = remaining
     /\ isTimerRunning s' = true)
  /\ (remaining <= 0 ->
     sessionStartTime s' = None /\ timeLeft s' = SESSION_DURATION
     /\ isTimerRunning s' = false).
Proof.
  intros Hp Hz remaining s'. subst s'. unfold reload, loadEffect.
  rewrite Hp. destruct (Z.eqb_spec start 0) as [E|_]; [contradiction|].
  unfold resumeSession. fold remaining.
  destruct (Z.gtb_spec remaining 0) as [G|G];
    (split; intros H; [|]); try lia; handlers; repeat split.
Qed.

(** C3: on load of a document with a stored (non-zero) sessionStartTime,
    with [elapsed] the whole seconds from the stored start to now: if
    [elapsed] is below the session duration of 300 seconds the machine is
    Running again, on the stored start, with [SESSION_DURATION - elapsed]
    seconds left; otherwise sessionStartTime is cleared and the machine is
    Idle. In both cases the history is the stored one: no SUCCESS or
    FAILURE record is added, and fund, successCount and spinsAvailable are
    the stored ones. [elapsed] is below the duration exactly when fewer
    than 300000 milliseconds lie between the stored start and now. *)
Theorem resume_on_load (parsed : Parsed) (now start : Z) :
  p_sessionStartTime parsed = Some start ->
  start <> 0 ->
  let elapsed := (now - start) / 1000 in
  let s' := reload (Document parsed) now in
  (elapsed < SESSION_DURATION ->
     isTimerRunning s' = true
     /\ sessionStartTime s' = Some start
     /\ timeLeft s' = SESSION_DURATION - elapsed)
  /\ (SESSION_DURATION <= elapsed ->
     isTimerRunning s' = false
     /\ sessionStartTime s' = None)
  /\ records s' = nullish (p_records parsed) []
  /\ fund s' = nullish (p_fund parsed) 0
  /\ successCount s' = nullish (p_successCount parsed) 0
  /\ spinsAvailable s' = nullish (p_spinsAvailable parsed) 0
  /\ (elapsed < SESSION_DURATION <-> now - start < 300 * 1000).
Proof.
  intros Hp Hz elapsed s'.
  destruct (reload_session parsed now start Hp Hz) as (Hrun & Hidle).
  destruct (reload_document parsed now) as (Hf & Hr & Hc & Hs).
  fold s' in Hrun, Hidle, Hf, Hr, Hc, Hs. fold elapsed in Hrun, Hidle.
  split; [|split].
  - intros H. destruct Hrun as (A & B & C); [lia|]. auto.
  - intros H. destruct Hidle as (A & B & C); [lia|]. auto.
  - repeat split; try assumption; apply elapsed_below_duration.
Qed.

(** The two reloads of the specification: a session started 200 seconds
    ago resumes with 100 seconds left, one started 400 seconds ago lapses
    and the single stored record stays the only one. *)
Lemma resume_on_load_witness :
  let stored_record := mkRecord "1" LOTTERY 20 1 "Lottery: Medium Surprise" in
  let parsed := mkParsed (Some 30) (Some 1000) (Some 0) (Some 0)
                  (Some [stored_record]) (Some 1000000) in
  (isTimerRunning (reload (Document parsed) 1200000) = true
   /\ timeLeft (reload (Document parsed) 1200000) = 100)
  /\ (isTimerRunning (reload (Document parsed) 1400000) = false
      /\ sessionStartTime (reload (Document parsed) 1400000) = None
      /\ records (reload (Document parsed) 1400000) = [stored_record]).
Proof.
  intros stored_record parsed. split.
  - destruct (resume_on_load parsed 1200000 1000000 eq_refl) as (H & _).
    + discriminate.
    + destruct H as (A & _ & C); [reflexivity|]. split; [exact A|exact C].
  - destruct (resume_on_load parsed 1400000 1000000 eq_refl)
      as (_ & H & R & _).
    + discriminate.
    + destruct H as (A & B); [discriminate|].
      split; [exact A|]. split; [exact B|exact R].
Defined.

(** A stored start of 0 is not seen by [if (parsed.sessionStartTime)]: the
    component stays as mounted, Idle. *)
Lemma reload_zero_start (parsed : Parsed) (now : Z) :
  p_sessionStartTime parsed = Some 0 ->
  sessionStartTime (reload (Document parsed) now) = None
  /\ isTimerRunning (reload (Document parsed) now) = false.
Proof.
  intros Hp. unfold reload, loadEffect. rewrite Hp.
  cbn [Z.eqb]. handlers. split; reflexivity.
Qed.

(** Without an entry, or with one that does not parse, the component stays
    in its initial state. *)
Lemma reload_nothing (now : Z) :
  reload NoEntry now = initialState /\ reload Malformed now = initialState.
Proof. split; reflexivity. Qed.

(** The snapshot of a state determines its six persisted fields. *)
Lemma snapshot_eq (s1 s2 : State) :
  fund s1 = fund s2 ->
  successCount s1 = successCount s2 ->
  spinsAvailable s1 = spinsAvailable s2 ->
  records s1 = records s2 ->
  sessionStartTime s1 = sessionStartTime s2 ->
  snapshot s1 = snapshot s2.
Proof.
  intros A B C D E. unfold snapshot. rewrite A, B, C, D, E. reflexivity.
Qed.

(** The statement of C4 as the specification has it fails: a session
    started at 1000 ms, saved, and loaded 300 seconds later comes back
    without its sessionStartTime. *)
Lemma save_then_load_counterexample :
  snapshot (reload (saveEffect (startTimer 1000 initialState)) 301000)
  <> snapshot (startTimer 1000 initialState).
Proof.
  intros H. apply (f_equal a_sessionStartTime) in H.
  vm_compute in H. discriminate H.
Qed.

(** C4 (amended): saving a state and loading it at time [now] gives back
    fund, target, successCount, spinsAvailable and records as they were.
    sessionStartTime comes back as it was when it is null, and when it is a
    non-zero start whose remaining time
    [SESSION_DURATION - floor((now - start) / 1000)] is positive (then the
    whole snapshot is identical, the machine is Running and the remaining
    time is that number); when the remaining time is zero or negative,
    sessionStartTime comes back null. *)
Theorem save_then_load (s : State) (now : Z) :
  let s' := reload (saveEffect s) now in
  fund s' = fund s
  /\ a_target (snapshot s') = a_target (snapshot s)
  /\ successCount s' = successCount s
  /\ spinsAvailable s' = spinsAvailable s
  /\ records s' = records s
  /\ (sessionStartTime s = None -> snapshot s' = snapshot s)
  /\ (forall start, sessionStartTime s = Some start -> start <> 0 ->
      0 < SESSION_DURATION - (now - start) / 1000 ->
      snapshot s' = snapshot s
      /\ isTimerRunning s' = true
      /\ timeLeft s' = SESSION_DURATION - (now - start) / 1000)
  /\ (forall start, sessionStartTime s = Some start ->
      SESSION_DURATION - (now - start) / 1000 <= 0 ->
      sessionStartTime s' = None /\ isTimerRunning s' = false).
Proof.
  intros s'. subst s'. unfold saveEffect, stringify.
  set (parsed := mkParsed _ _ _ _ _ _).
  destruct (reload_document parsed now) as (Hf & Hr & Hc & Hs).
  cbn [parsed p_fund p_records p_successCount p_spinsAvailable nullish
       snapshot a_fund a_records a_successCount a_spinsAvailable]
    in Hf, Hr, Hc, Hs.
  assert (Hp : p_sessionStartTime parsed = sessionStartTime s) by reflexivity.
  split; [exact Hf|]. split; [reflexivity|]. split; [exact Hc|].
  split; [exact Hs|]. split; [exact Hr|]. split; [|split].
  - intros Hn. apply snapshot_eq; try assumption.
    rewrite Hn. unfold reload, loadEffect. rewrite Hp, Hn.
    handlers. reflexivity.
  - intros start Hst Hz Hrem. rewrite Hst in Hp.
    destruct (reload_session parsed now start Hp Hz) as (Hrun & _).
    destruct (Hrun Hrem) as (A & B & C).
    split; [|split; assumption].
    apply snapshot_eq; try assumption. rewrite A, Hst. reflexivity.
  - intros start Hst Hrem. rewrite Hst in Hp.
    destruct (Z.eq_dec start 0) as [E|E].
    + subst start. apply reload_zero_start. exact Hp.
    + destruct (reload_session parsed now start Hp E) as (_ & Hidle).
      destruct (Hidle Hrem) as (A & _ & C). split; assumption.
Qed.

(** A running session saved and loaded 100 seconds after its start (it
    resumes, the snapshot is the same) and 300 seconds after (it is
    dropped). *)
Lemma save_then_load_witness :
  let s := startTimer 1000 initialState in
  (snapshot (reload (saveEffect s) 101000) = snapshot s
   /\ timeLeft (reload (saveEffect s) 101000) = 200)
  /\ sessionStartTime (reload (saveEffect s) 301000) = None
  /\ snapshot (reload (saveEffect initialState) 5) = snapshot initialState.
Proof.
  intros s. split; [|split].
  - destruct (save_then_load s 101000) as (_ & _ & _ & _ & _ & _ & H & _).
    destruct (H 1000) as (A & _ & C);
      [reflexivity|discriminate|reflexivity|].
    split; [exact A|exact C].
  - destruct (save_then_load s 301000) as (_ & _ & _ & _ & _ & _ & _ & H).
    destruct (H 1000) as (A & _); [reflexivity|discriminate|exact A].
  - destruct (save_then_load initialState 5) as (_ & _ & _ & _ & _ & H & _).
    apply H. reflexivity.
Defined.

(** *** The reward draw *)

Lemma runningSum_cons (rule : LotteryRule) (rest : list LotteryRule)
    (c0 : float) (n : nat) :
  runningSum (rule :: rest) c0 (S n)
  = runningSum rest (c0 + probability rule)%float n.
Proof. reflexivity. Qed.

(** The loop returns the first rule whose running sum reaches [rand], and
    the initial [selectedRule] when no running sum does. *)
Lemma selectLoop_first (rules : list LotteryRule) (rand c0 : float)
    (selectedRule : LotteryRule) :
  (exists i rule,
      nth_error rules i = Some rule
      /\ selectLoop rules rand c0 selectedRule = rule
      /\ (rand <=? runningSum rules c0 (S i))%float = true
      /\ forall j, (j < i)%nat ->
           (rand <=? runningSum rules c0 (S j))%float = false)
  \/ (selectLoop rules rand c0 selectedRule = selectedRule
      /\ forall j, (j < List.length rules)%nat ->
           (rand <=? runningSum rules c0 (S j))%float = false).
Proof.
  revert c0. induction rules as [|rule rest IH]; intros c0.
  - right. split; [reflexivity|]. cbn [List.length]. intros j Hj. lia.
  - cbn [selectLoop].
    destruct (rand <=? c0 + probability rule)%float eqn:Hle.
    + left. exists 0%nat, rule. repeat split.
      * exact Hle.
      * intros j Hj. lia.
    + destruct (IH (c0 + probability rule)%float)
        as [(i & r & Hn & Hsel & Hi & Hlt)|(Hsel & Hall)].
      * left. exists (S i), r. repeat split.
        -- exact Hn.
        -- exact Hsel.
        -- rewrite runningSum_cons. exact Hi.
        -- intros [|j] Hj; [exact Hle|].
           rewrite runningSum_cons. apply Hlt. lia.
      * right. split; [exact Hsel|].
        intros [|j] Hj; [exact Hle|].
        rewrite runningSum_cons. apply Hall. cbn [List.length] in Hj. lia.
Qed.

(** A canonical mantissa lies between the powers of two of its length. *)
Lemma digits2_pos_bounds (m : positive) :
  2 ^ Z.pos (digits2_pos m) <= 2 * Z.pos m < 2 * 2 ^ Z.pos (digits2_pos m).
Proof.
  induction m as [m IH|m IH|]; cbn [digits2_pos].
  - rewrite Pos2Z.inj_succ, (Pos2Z.inj_xI m), Z.pow_succ_r by lia.
    revert IH. generalize (2 ^ Z.pos (digits2_pos m)). lia.
  - rewrite Pos2Z.inj_succ, (Pos2Z.inj_xO m), Z.pow_succ_r by lia.
    revert IH. generalize (2 ^ Z.pos (digits2_pos m)). lia.
  - cbn. lia.
Qed.

(** The four running sums, as the binary64 additions give them: the last
    one is not 1 but the largest number below 1. *)
Lemma cumulative_values :
  cumulative 1 = 0.4%float
  /\ cumulative 2 = 0.7%float
  /\ cumulative 3 = 0.8999999999999999%float
  /\ cumulative 4 = 0.9999999999999999%float
  /\ Prim2SF (cumulative 4) = S754_finite false 9007199254740991 (-53).
Proof. repeat split. Qed.

(** Every binary64 number below 1 is at most the last running sum. *)
Lemma below_one_reaches_last (rand : float) :
  (rand <? 1)%float = true -> (rand <=? cumulative 4)%float = true.
Proof.
  rewrite ltb_spec, leb_spec.
  pose proof (Prim2SF_valid rand) as V.
  replace (Prim2SF 1) with (S754_finite false 4503599627370496 (-52))
    by (vm_compute; reflexivity).
  replace (Prim2SF (cumulative 4))
    with (S754_finite false 9007199254740991 (-53))
    by (vm_compute; reflexivity).
  destruct (Prim2SF rand) as [s|s| |s m e].
  - reflexivity.
  - destruct s; [reflexivity|discriminate].
  - discriminate.
  - destruct s; [reflexivity|].
    unfold valid_binary, bounded, canonical_mantissa, fexp, emin, prec, emax
      in V.
    apply andb_prop in V. destruct V as [V _]. apply Z.eqb_eq in V.
    pose proof (digits2_pos_bounds m) as D.
    unfold SFltb, SFleb, SFcompare.
    rewrite !Pos.compare_cont_spec. unfold Pos.switch_Eq.
    change IntDef.Z.max with Z.max in V.
    assert (P53 : 2 ^ 53 = 9007199254740992) by reflexivity.
    destruct (Z.compare_spec e (-52)) as [E|E|E]; [| |discriminate].
    + destruct (Pos.compare_spec m 4503599627370496) as [M|M|M];
        try discriminate.
      exfalso. subst e.
      assert (Hd : Z.pos (digits2_pos m) = 53) by (clear D P53 M; lia).
      rewrite Hd, P53 in D. apply Pos2Z.pos_lt_pos in M. lia.
    + intros _.
      destruct (Z.compare_spec e (-53)) as [E'|E'|E']; [|reflexivity|lia].
      destruct (Pos.compare_spec m 9007199254740991) as [M|M|M];
        try reflexivity.
      exfalso. subst e.
      assert (Hd : Z.pos (digits2_pos m) = 53) by (clear D P53 M; lia).
      rewrite Hd, P53 in D. apply Pos2Z.pos_lt_pos in M. lia.
Qed.

(** C2: for every value [rand] of [Math.random()], a binary64 number with
    0 <= rand < 1, the draw returns the first tier, in the order of the
    table, whose running cumulative probability is >= rand; if no tier had
    such a sum it would return the final tier (for these values one always
    has: the fourth running sum is the largest number below 1); the tier
    returned is one of the four of the table, and a spin that is available
    always produces it as the lottery result. *)
Theorem draw_selects_first_tier (rand : float) :
  (0 <=? rand)%float = true ->
  (rand <? 1)%float = true ->
  (exists i rule,
      nth_error LOTTERY_RULES i = Some rule
      /\ selectRule rand = rule
      /\ (rand <=? cumulative (S i))%float = true
      /\ forall j, (j < i)%nat -> (rand <=? cumulative (S j))%float = false)
  /\ ((forall j, (j < List.length LOTTERY_RULES)%nat ->
         (rand <=? cumulative (S j))%float = false) ->
      selectRule rand = last LOTTERY_RULES RULE_MINOR)
  /\ In (selectRule rand) LOTTERY_RULES
  /\ (forall s t_id t_ts, 0 < spinsAvailable s ->
      lotteryResult (playLottery rand t_id t_ts s)
      = Some (rule_amount (selectRule rand), label (selectRule rand))).
Proof.
  intros _ Hlt.
  pose proof (below_one_reaches_last rand Hlt) as Hlast.
  assert (Hfirst : exists i rule,
      nth_error LOTTERY_RULES i = Some rule
      /\ selectRule rand = rule
      /\ (rand <=? cumulative (S i))%float = true
      /\ forall j, (j < i)%nat -> (rand <=? cumulative (S j))%float = false).
  { destruct (selectLoop_first LOTTERY_RULES rand 0%float
                (hd RULE_MINOR LOTTERY_RULES)) as [H|(_ & Hall)].
    - exact H.
    - exfalso. specialize (Hall 3%nat).
      fold (cumulative 4) in Hall. rewrite Hlast in Hall.
      assert (H : (3 < List.length LOTTERY_RULES)%nat) by (cbn; lia).
      specialize (Hall H). discriminate. }
  split; [exact Hfirst|]. split; [|split].
  - intros Hall. exfalso. specialize (Hall 3%nat).
    rewrite Hlast in Hall.
    assert (H : (3 < List.length LOTTERY_RULES)%nat) by (cbn; lia).
    specialize (Hall H). discriminate.
  - destruct Hfirst as (i & rule & Hn & Hsel & _).
    rewrite Hsel. exact (nth_error_In _ _ Hn).
  - intros s t_id t_ts Hs.
    apply (playLottery_fields rand t_id t_ts s Hs).
Qed.

(** The draw at 0.75: the first two running sums, 0.4 and 0.7, are below
    it, the third reaches it, and the tier is the third, "Big Explosion". *)
Lemma draw_selects_first_tier_witness :
  selectRule 0.75%float = RULE_BIG
  /\ In (selectRule 0.75%float) LOTTERY_RULES.
Proof.
  destruct (draw_selects_first_tier 0.75%float eq_refl eq_refl)
    as (_ & _ & Hin & _).
  split; [reflexivity|exact Hin].
Defined.

(** Outside the range of [Math.random()] the loop can end without a
    [break]; [selectedRule] is then what it was initialised with, the first
    tier of the table. *)
Lemma selectRule_no_break :
  selectRule 1%float = RULE_MINOR
  /\ selectRule 1%float = hd RULE_MINOR LOTTERY_RULES.
Proof. split; reflexivity. Qed.

(** *** The ledger invariant *)

Lemma sumAmounts_cons (r : HistoryRecord) (rs : list HistoryRecord) :
  sumAmounts (r :: rs) = amount r + sumAmounts rs.
Proof. reflexivity. Qed.

(** The amounts of a history split over the records a test selects and the
    records it rejects. *)
Lemma sumAmounts_filter (p : HistoryRecord -> bool) (rs : list HistoryRecord) :
  sumAmounts rs
  = sumAmounts (filter p rs) + sumAmounts (filter (fun r => negb (p r)) rs).
Proof.
  induction rs as [|r rs IH]; [reflexivity|].
  cbn [filter]. destruct (p r); cbn [negb];
    rewrite !sumAmounts_cons, IH; lia.
Qed.

(** [find] returns the head of what [filter] keeps. *)
Lemma find_filter_head (p : HistoryRecord -> bool) (rs : list HistoryRecord)
    (r : HistoryRecord) :
  find p rs = Some r -> exists tl, filter p rs = r :: tl.
Proof.
  induction rs as [|a rs IH]; cbn [find filter]; [discriminate|].
  destruct (p a).
  - intros H. injection H as ->. eexists. reflexivity.
  - exact IH.
Qed.

(** Removing the records of an id that a single record carries lowers the
    sum of the amounts by the amount of that record. *)
Lemma sumAmounts_delete_single (sel : string) (rs : list HistoryRecord)
    (r : HistoryRecord) :
  find (fun x => String.eqb (id x) sel) rs = Some r ->
  (idCount sel rs <= 1)%nat ->
  sumAmounts (filter (fun x => negb (String.eqb (id x) sel)) rs)
  = sumAmounts rs - amount r.
Proof.
  intros Hfind Hcount.
  rewrite (sumAmounts_filter (fun x => String.eqb (id x) sel) rs).
  destruct (find_filter_head _ _ _ Hfind) as (tl & Htl).
  unfold idCount in Hcount. rewrite Htl in *.
  destruct tl as [|b tl]; [|cbn [List.length] in Hcount; lia].
  rewrite sumAmounts_cons. cbn [sumAmounts fold_right]. lia.
Qed.

Lemma selectRecord_fields (rid : string) (s : State) :
  fund (selectRecord rid s) = fund s
  /\ records (selectRecord rid s) = records s
  /\ sessionStartTime (selectRecord rid s) = sessionStartTime s
  /\ selectedRecordId (selectRecord rid s) = Some rid.
Proof. handlers. repeat split. Qed.

(** [deleteRecord] either leaves fund and history as they are (nothing
    selected, or no record with the selected id) or reverses the first
    record with the selected id and drops all of them; the session is not
    touched. *)
Lemma deleteRecord_cases (s : State) :
  sessionStartTime (deleteRecord s) = sessionStartTime s
  /\ ((fund (deleteRecord s) = fund s /\ records (deleteRecord s) = records s)
      \/ exists sel r,
           selectedRecordId s = Some sel
           /\ find (fun x => String.eqb (id x) sel) (records s) = Some r
           /\ fund (deleteRecord s) = fund s - amount r
           /\ records (deleteRecord s)
              = filter (fun x => negb (String.eqb (id x) sel)) (records s)).
Proof.
  unfold deleteRecord.
  destruct (selectedRecordId s) as [sel|] eqn:Hsel;
    [|split; [reflexivity|left; split; reflexivity]].
  destruct (String.eqb sel "");
    [split; [reflexivity|left; split; reflexivity]|].
  destruct (find (fun r => String.eqb (id r) sel) (records s)) as [r|] eqn:Hf.
  - handlers. split; [reflexivity|]. right. exists sel, r.
    repeat split. exact Hf.
  - handlers. split; [reflexivity|left; split; reflexivity].
Qed.

Lemma activePledge_active (s : State) :
  sessionActive s = true -> activePledge s = PLEDGE_AMOUNT.
Proof.
  unfold sessionActive, activePledge.
  destruct (sessionStartTime s); [reflexivity|discriminate].
Qed.

Lemma activePledge_idle (s : State) :
  sessionActive s = false -> activePledge s = 0.
Proof.
  unfold sessionActive, activePledge.
  destruct (sessionStartTime s); [discriminate|reflexivity].
Qed.

(** An enabled operation keeps the ledger reconciled. *)
Lemma step_reconciled (o : Op) (s : State) :
  enabled o s = true -> reconciled s -> reconciled (step o s).
Proof.
  unfold reconciled. intros He Hr.
  destruct o as [now|t_id t_ts|t_id t_ts|rand t_id t_ts|rid];
    cbn [enabled] in He.
  - rewrite step_start.
    destruct (startTimer_fields now s) as (Hf & Hrec & _ & _ & Hs & _).
    apply negb_true_iff in He. apply activePledge_idle in He.
    unfold activePledge at 1. rewrite Hf, Hrec, Hs, Hr, He. lia.
  - rewrite step_abandon.
    destruct (stopTimer_fields t_id t_ts s) as (Hf & Hrec & _ & _ & Hs & _).
    apply activePledge_active in He.
    unfold activePledge at 1.
    rewrite Hf, Hrec, Hs, Hr, He, sumAmounts_cons. cbn [amount]. constants. lia.
  - rewrite step_expire.
    destruct (finishTimer_fields t_id t_ts s) as (Hf & Hrec & _ & _ & Hs & _).
    apply activePledge_active in He.
    unfold activePledge at 1.
    rewrite Hf, Hrec, Hs, Hr, He, sumAmounts_cons. cbn [amount]. constants. lia.
  - rewrite step_lottery.
    destruct (Z.leb_spec (spinsAvailable s) 0) as [L|L].
    + rewrite playLottery_no_spin by exact L. exact Hr.
    + destruct (playLottery_fields rand t_id t_ts s L)
        as (Hf & Hrec & _ & _ & Hs & _).
      unfold activePledge in *.
      rewrite Hf, Hrec, Hs, Hr, sumAmounts_cons. cbn [amount]. lia.
  - rewrite step_delete.
    destruct (selectRecord_fields rid s) as (Sf & Srec & Ss & Ssel).
    destruct (deleteRecord_cases (selectRecord rid s))
      as (Hs & [(Hf & Hrec)|(sel & r & Hsel & Hfind & Hf & Hrec)]).
    + unfold activePledge in *. rewrite Hs, Hf, Hrec, Sf, Srec, Ss. exact Hr.
    + rewrite Ssel in Hsel. injection Hsel as <-.
      rewrite Srec in Hfind, Hrec. apply Nat.leb_le in He.
      unfold activePledge in *. rewrite Hs, Hf, Hrec, Sf, Ss.
      rewrite (sumAmounts_delete_single rid (records s) r Hfind He). lia.
Qed.

(** The statement of C1 as the specification has it, over every sequence
    of operations, fails on a first run: a start during a session counts
    a second pledge; an abandon without a session, and an abandon that
    arrives after the countdown has expired, take 20 from the fund for a
    record of -10; a deletion by an id that two records share reverses one
    amount and removes both records. *)
Lemma ledger_counterexample :
  ~ reconciled (run [OpStart 1000; OpStart 2000] initialState)
  /\ ~ reconciled (run [OpAbandon 1000 1000] initialState)
  /\ ~ reconciled (run [OpStart 1000; OpExpire 301000 301000;
                        OpAbandon 301000 301000] initialState)
  /\ ~ reconciled (run [OpStart 1000; OpExpire 5000 5000; OpStart 5000;
                        OpAbandon 5000 5000; OpDelete "5000"] initialState).
Proof.
  repeat split; intros H; vm_compute in H; discriminate H.
Qed.

(** C1 (amended): from a reconciled state, the first run's in particular,
    every sequence of controller operations (start, abandon, expire,
    lottery draw, record delete) in which each start finds no session
    active, each abandon and each expiry finds one active, and each delete
    names an id that at most one present record carries, ends in a state
    whose fund is the sum of the amounts of the present records, plus the
    pledge of 10 exactly when a session is active (sessionStartTime not
    null). *)
Theorem ledger_reconciled (ops : list Op) (s : State) :
  reconciled s ->
  admissible ops s = true ->
  reconciled (run ops s)
  /\ (sessionStartTime (run ops s) = None ->
      fund (run ops s) = sumAmounts (records (run ops s)))
  /\ (sessionStartTime (run ops s) <> None ->
      fund (run ops s) = sumAmounts (records (run ops s)) + 10).
Proof.
  intros Hr Ha.
  assert (R : reconciled (run ops s)).
  { revert s Hr Ha. induction ops as [|o ops IH]; intros s Hr Ha.
    - rewrite run_nil. exact Hr.
    - rewrite run_cons. cbn [admissible] in Ha.
      apply andb_prop in Ha. destruct Ha as (He & Ha).
      apply IH; [apply step_reconciled; assumption|exact Ha]. }
  split; [exact R|].
  unfold reconciled, activePledge in R.
  destruct (sessionStartTime (run ops s)).
  - split; [discriminate|]. intros _. exact R.
  - split; [|congruence]. intros _. rewrite R. lia.
Qed.

(** A first run through every kind of operation: a session given up,
    five sessions completed, the spin drawn, a second draw refused, a
    deletion, and a session left running. *)
Lemma ledger_reconciled_witness :
  let ops := [OpStart 1000; OpAbandon 2000 2000;
              OpStart 3000; OpExpire 303000 303000;
              OpStart 400000; OpExpire 700000 700001;
              OpStart 800000; OpExpire 1100000 1100000;
              OpStart 1200000; OpExpire 1500000 1500000;
              OpStart 1600000; OpExpire 1900000 1900000;
              OpLottery 0.5%float 2000000 2000000;
              OpLottery 0.25%float 2000001 2000001;
              OpDelete "303000";
              OpStart 2100000] in
  fund (run ops initialState) = 60
  /\ fund (run ops initialState)
     = sumAmounts (records (run ops initialState)) + 10.
Proof.
  intros ops.
  destruct (ledger_reconciled ops initialState) as (_ & _ & H).
  - reflexivity.
  - vm_compute. reflexivity.
  - split; [vm_compute; reflexivity|].
    apply H. vm_compute. discriminate.
Defined.

(** ** Further properties of the handlers *)

(** *** Record ids *)

(** The decimal text of a clock reading is never empty, so a record that a
    handler creates can always be selected for deletion. *)
Lemma toString_nonempty (n : Z) : toString n <> "".
Proof.
  unfold toString, NilZero.string_of_int, NilZero.string_of_uint.
  destruct (Z.to_int n) as [d|d]; [|discriminate].
  destruct d; cbn [NilEmpty.string_of_uint]; discriminate.
Qed.

Lemma to_int_proper (n : Z) :
  Z.to_int n <> Decimal.Pos Decimal.Nil
  /\ Z.to_int n <> Decimal.Neg Decimal.Nil.
Proof.
  destruct n as [|p|p]; cbn [Z.to_int]; split; try discriminate;
    intros H; injection H as H;
    exact (DecimalPos.Unsigned.to_uint_nonnil p H).
Qed.

(** Two clock readings have the same decimal text only when they are the
    same reading, and the text reads back to the number. *)
Lemma toString_parse (n : Z) :
  option_map Z.of_int (NilZero.int_of_string (toString n)) = Some n.
Proof.
  unfold toString. destruct (to_int_proper n) as (Hp & Hn).
  rewrite (NilZero.isi _ Hp Hn). cbn [option_map].
  rewrite DecimalZ.of_to. reflexivity.
Qed.

Lemma toString_injective (a b : Z) : toString a = toString b -> a = b.
Proof.
  intros H. pose proof (toString_parse a) as Ra.
  rewrite H, toString_parse in Ra. injection Ra as Ra. symmetry. exact Ra.
Qed.

(** X1: the records that an expiry, an abandon and a draw create carry the
    same id exactly when the handlers read the same clock value: ids made
    on different milliseconds never collide, ids made on the same
    millisecond always do; and an id is never the empty text, which
    [deleteRecord] would take for no selection. *)
Theorem new_ids_collide_iff_same_reading
    (t1 t2 t3 ts1 ts2 ts3 : Z) (rand : float) (s1 s2 s3 : State) :
  0 < spinsAvailable s3 ->
  let id1 := option_map id (hd_error (records (finishTimer t1 ts1 s1))) in
  let id2 := option_map id (hd_error (records (stopTimer t2 ts2 s2))) in
  let id3 := option_map id (hd_error (records (playLottery rand t3 ts3 s3))) in
  (id1 = id2 <-> t1 = t2) /\ (id2 = id3 <-> t2 = t3) /\ (id1 = id3 <-> t1 = t3)
  /\ id1 <> Some "" /\ id2 <> Some "" /\ id3 <> Some "".
Proof.
  intros H id1 id2 id3.
  destruct (new_record_ids t1 ts1 ts1 ts1 rand s1 s1 s3 H) as (E1 & _ & _).
  destruct (new_record_ids t2 ts2 ts2 ts2 rand s2 s2 s3 H) as (_ & E2 & _).
  destruct (new_record_ids t3 ts3 ts3 ts3 rand s3 s3 s3 H) as (_ & _ & E3).
  subst id1 id2 id3. rewrite E1, E2, E3.
  assert (K : forall a b, Some (toString a) = Some (toString b) <-> a = b).
  { intros a b. split; [|intros ->; reflexivity].
    intros E. injection E as E. apply toString_injective. exact E. }
  repeat split; try apply K;
    intros E; injection E as E; exact (toString_nonempty _ E).
Qed.

(** An expiry and an abandon one millisecond apart, and on the same
    millisecond. *)
Lemma new_ids_collide_iff_same_reading_witness :
  let s := setSpinsAvailable (fun _ => 1) initialState in
  option_map id (hd_error (records (finishTimer 1700000000000 0 s)))
  <> option_map id (hd_error (records (stopTimer 1700000000001 0 s)))
  /\ option_map id (hd_error (records (finishTimer 1700000000000 0 s)))
     = option_map id (hd_error (records (stopTimer 1700000000000 0 s))).
Proof.
  intros s. split.
  - destruct (new_ids_collide_iff_same_reading
                1700000000000 1700000000001 0 0 0 0 0.5%float s s s)
      as ((H & _) & _); [reflexivity|].
    intros E. specialize (H E). discriminate H.
  - destruct (new_ids_collide_iff_same_reading
                1700000000000 1700000000000 0 0 0 0 0.5%float s s s)
      as ((_ & H) & _); [reflexivity|].
    apply H. reflexivity.
Defined.

(** *** Deletion: absent ids, distinct ids, undoing a session or a draw *)

Lemma hasId_false (rid : string) (rs : list HistoryRecord) :
  hasId rid rs = false <-> ~ In rid (ids rs).
Proof.
  unfold hasId, ids. induction rs as [|a rs IH]; cbn [existsb map In].
  - split; [intros _ []|reflexivity].
  - destruct (String.eqb_spec (id a) rid) as [E|N]; cbn [orb].
    + split; [discriminate|]. intros H. exfalso. apply H. left. exact E.
    + rewrite IH. split.
      * intros H [E|I]; [exact (N E)|exact (H I)].
      * intros H I. apply H. right. exact I.
Qed.

Lemma find_absent (rid : string) (rs : list HistoryRecord) :
  hasId rid rs = false ->
  find (fun r => String.eqb (id r) rid) rs = None.
Proof.
  unfold hasId. induction rs as [|a rs IH]; cbn [existsb find];
    [reflexivity|].
  destruct (String.eqb (id a) rid); cbn [orb]; [discriminate|exact IH].
Qed.

Lemma filter_absent (rid : string) (rs : list HistoryRecord) :
  hasId rid rs = false ->
  filter (fun r => negb (String.eqb (id r) rid)) rs = rs.
Proof.
  unfold hasId. induction rs as [|a rs IH]; cbn [existsb filter];
    [reflexivity|].
  destruct (String.eqb (id a) rid); cbn [orb negb]; [discriminate|].
  intros H. rewrite (IH H). reflexivity.
Qed.

Lemma idCount_absent (rid : string) (rs : list HistoryRecord) :
  hasId rid rs = false -> idCount rid rs = 0%nat.
Proof.
  unfold hasId, idCount. induction rs as [|a rs IH]; cbn [existsb filter];
    [reflexivity|].
  destruct (String.eqb (id a) rid); cbn [orb]; [discriminate|exact IH].
Qed.

(** In a history without repeated ids, an id is carried by one record at
    most. *)
Lemma idCount_NoDup (rid : string) (rs : list HistoryRecord) :
  NoDup (ids rs) -> (idCount rid rs <= 1)%nat.
Proof.
  unfold ids. induction rs as [|a rs IH]; intros Hnd; [cbn; lia|].
  cbn [map] in Hnd. inversion Hnd as [|x l Hnotin Hnd']; subst.
  unfold idCount in *. cbn [filter].
  destruct (String.eqb_spec (id a) rid) as [E|N]; [|exact (IH Hnd')].
  cbn [List.length]. subst rid.
  apply hasId_false in Hnotin. apply idCount_absent in Hnotin.
  unfold idCount in Hnotin. rewrite Hnotin. lia.
Qed.

Lemma NoDup_ids_filter (p : HistoryRecord -> bool) (rs : list HistoryRecord) :
  NoDup (ids rs) -> NoDup (ids (filter p rs)).
Proof.
  unfold ids. induction rs as [|a rs IH]; intros Hnd; [exact Hnd|].
  cbn [map] in Hnd. inversion Hnd as [|x l Hnotin Hnd']; subst.
  cbn [filter]. destruct (p a); [|exact (IH Hnd')].
  cbn [map]. constructor; [|exact (IH Hnd')].
  intros Hin. apply Hnotin. apply in_map_iff in Hin.
  destruct Hin as (x & Hx & Hin). apply filter_In in Hin.
  apply in_map_iff. exists x. split; [exact Hx|apply Hin].
Qed.

Lemma selectRecord_others (rid : string) (s : State) :
  successCount (selectRecord rid s) = successCount s
  /\ spinsAvailable (selectRecord rid s) = spinsAvailable s
  /\ isTimerRunning (selectRecord rid s) = isTimerRunning s
  /\ timeLeft (selectRecord rid s) = timeLeft s
  /\ lotteryResult (selectRecord rid s) = lotteryResult s.
Proof. handlers. repeat split. Qed.

Lemma deleteRecord_others (s : State) :
  isTimerRunning (deleteRecord s) = isTimerRunning s
  /\ timeLeft (deleteRecord s) = timeLeft s
  /\ lotteryResult (deleteRecord s) = lotteryResult s.
Proof.
  unfold deleteRecord.
  destruct (selectedRecordId s) as [sel|]; [|repeat split].
  destruct (String.eqb sel ""); [repeat split|].
  destruct (find _ (records s)); handlers; repeat split.
Qed.

Lemma deleteRecord_unusable (s : State) :
  selectedRecordId s = None \/ selectedRecordId s = Some "" ->
  deleteRecord s = s.
Proof. intros [H|H]; unfold deleteRecord; rewrite H; reflexivity. Qed.

(** X2: [deleteRecord] without a usable selection (none, or the empty
    text) returns at once: the state is unchanged and the dialog stays
    open. With a selected id that no record carries it changes neither the
    fund nor the history, reports nothing, closes the dialog and clears
    the selection. *)
Theorem delete_without_target (s : State) :
  (selectedRecordId s = None \/ selectedRecordId s = Some "" ->
     deleteRecord s = s)
  /\ (forall sel, selectedRecordId s = Some sel -> sel <> "" ->
      hasId sel (records s) = false ->
      fund (deleteRecord s) = fund s
      /\ records (deleteRecord s) = records s
      /\ successCount (deleteRecord s) = successCount s
      /\ spinsAvailable (deleteRecord s) = spinsAvailable s
      /\ sessionStartTime (deleteRecord s) = sessionStartTime s
      /\ activeModal (deleteRecord s) = None
      /\ selectedRecordId (deleteRecord s) = None).
Proof.
  split.
  - apply deleteRecord_unusable.
  - intros sel Hsel Hne Habs. unfold deleteRecord. rewrite Hsel.
    destruct (String.eqb_spec sel "") as [E|_]; [contradiction|].
    rewrite (find_absent sel (records s) Habs).
    handlers. repeat split.
Qed.

(** A first run with the delete dialog confirmed on no selection, and on
    an id that is not in the history. *)
Lemma delete_without_target_witness :
  deleteRecord initialState = initialState
  /\ fund (deleteRecord (selectRecord "42" initialState)) = 0
  /\ activeModal (deleteRecord (selectRecord "42" initialState)) = None.
Proof.
  destruct (delete_without_target initialState) as (H & _).
  split; [apply H; left; reflexivity|].
  destruct (delete_without_target (selectRecord "42" initialState))
    as (_ & H').
  destruct (H' "42") as (A & _ & _ & _ & _ & B & _);
    [reflexivity|discriminate|reflexivity|].
  split; [exact A|exact B].
Defined.

(** Deleting, by its id, the record that is the head of the history and
    the only one with that id. *)
Lemma delete_head (r : HistoryRecord) (s0 s : State) :
  id r <> "" ->
  records s = r :: records s0 ->
  hasId (id r) (records s0) = false ->
  fund (step (OpDelete (id r)) s) = fund s - amount r
  /\ records (step (OpDelete (id r)) s) = records s0
  /\ successCount (step (OpDelete (id r)) s) = successCount s
  /\ spinsAvailable (step (OpDelete (id r)) s) = spinsAvailable s
  /\ sessionStartTime (step (OpDelete (id r)) s) = sessionStartTime s.
Proof.
  intros Hne Hrec Habs. rewrite step_delete.
  destruct (selectRecord_fields (id r) s) as (Sf & Srec & Ss & Ssel).
  destruct (selectRecord_others (id r) s) as (Sc & Ssp & _).
  destruct (deleteRecord_counters (selectRecord (id r) s)) as (Dc & Dsp).
  destruct (deleteRecord_cases (selectRecord (id r) s)) as (Ds & _).
  assert (Hfind : find (fun x => String.eqb (id x) (id r))
                    (records (selectRecord (id r) s)) = Some r).
  { rewrite Srec, Hrec. cbn [find]. rewrite String.eqb_refl. reflexivity. }
  destruct (deleteRecord_found _ (id r) r Ssel Hne Hfind) as (Df & Dr).
  rewrite Df, Dr, Dc, Dsp, Ds, Sf, Srec, Sc, Ssp, Ss, Hrec.
  cbn [filter]. rewrite String.eqb_refl. cbn [negb].
  rewrite (filter_absent (id r) (records s0) Habs).
  repeat split.
Qed.

(** X3: a session that is started and given up, then has its failure
    record deleted, leaves fund, history and counters as before the start.
    A session that is started and completed, then has its success record
    deleted, leaves fund and history as before the start but keeps the
    success it counted (and the spin it may have earned). The clock
    reading of the record must not be an id of the history already. *)
Theorem session_then_delete (s : State) (now t_id t_ts : Z) :
  hasId (toString t_id) (records s) = false ->
  let gaveUp := run [OpStart now; OpAbandon t_id t_ts;
                     OpDelete (toString t_id)] s in
  let completed := run [OpStart now; OpExpire t_id t_ts;
                        OpDelete (toString t_id)] s in
  (fund gaveUp = fund s /\ records gaveUp = records s
   /\ successCount gaveUp = successCount s
   /\ spinsAvailable gaveUp = spinsAvailable s
   /\ sessionStartTime gaveUp = None)
  /\ (fund completed = fund s /\ records completed = records s
      /\ successCount completed = successCount s + 1
      /\ spinsAvailable s <= spinsAvailable completed
      /\ sessionStartTime completed = None).
Proof.
  intros Habs gaveUp completed. subst gaveUp completed.
  autorewrite with run_eqs.
  destruct (startTimer_fields now s) as (Af & Ar & Ac & Asp & _).
  split.
  - destruct (stopTimer_fields t_id t_ts (startTimer now s))
      as (Bf & Br & Bc & Bsp & Bs & _).
    rewrite Ar in Br.
    destruct (delete_head
                (mkRecord (toString t_id) FAILURE RECORD_FAIL_AMOUNT t_ts
                   "Given Up")
                s (stopTimer t_id t_ts (startTimer now s))
                (toString_nonempty t_id) Br Habs) as (Cf & Cr & Cc & Csp & Cs).
    cbn [id amount] in Cf, Cr, Cc, Csp, Cs.
    rewrite step_delete in Cf, Cr, Cc, Csp, Cs.
    rewrite Cf, Cr, Cc, Csp, Cs, Bf, Bc, Bsp, Bs, Af, Ac, Asp. constants.
    repeat split; lia.
  - destruct (finishTimer_fields t_id t_ts (startTimer now s))
      as (Bf & Br & Bc & Bsp & Bs & _).
    rewrite Ar in Br.
    destruct (delete_head
                (mkRecord (toString t_id) SUCCESS RECORD_SUCCESS_AMOUNT t_ts
                   "Focus Success")
                s (finishTimer t_id t_ts (startTimer now s))
                (toString_nonempty t_id) Br Habs) as (Cf & Cr & Cc & Csp & Cs).
    cbn [id amount] in Cf, Cr, Cc, Csp, Cs.
    rewrite step_delete in Cf, Cr, Cc, Csp, Cs.
    rewrite Cf, Cr, Cc, Csp, Cs, Bf, Bc, Bsp, Bs, Af, Ac, Asp. constants.
    repeat split; try lia.
    destruct (Z.rem (successCount s + 1) 5 =? 0); lia.
Qed.

(** On a first run: give up and delete, complete and delete. *)
Lemma session_then_delete_witness :
  fund (run [OpStart 1000; OpAbandon 5000 5000; OpDelete "5000"]
          initialState) = 0
  /\ successCount (run [OpStart 1000; OpExpire 301000 301000;
                        OpDelete "301000"] initialState) = 1
  /\ records (run [OpStart 1000; OpExpire 301000 301000;
                   OpDelete "301000"] initialState) = [].
Proof.
  destruct (session_then_delete initialState 1000 5000 5000 eq_refl)
    as ((A & _) & _).
  destruct (session_then_delete initialState 1000 301000 301000 eq_refl)
    as (_ & (_ & B & C & _)).
  split; [exact A|]. split; [exact C|exact B].
Defined.

(** X4: a draw whose record is then deleted leaves fund and history as
    before the draw, and the spin stays spent: deletion takes the prize
    back and gives no spin back. *)
Theorem lottery_then_delete (s : State) (rand : float) (t_id t_ts : Z) :
  0 < spinsAvailable s ->
  hasId (toString t_id) (records s) = false ->
  let s' := run [OpLottery rand t_id t_ts; OpDelete (toString t_id)] s in
  fund s' = fund s
  /\ records s' = records s
  /\ spinsAvailable s' = spinsAvailable s - 1
  /\ successCount s' = successCount s.
Proof.
  intros Hsp Habs s'. subst s'. autorewrite with run_eqs.
  destruct (playLottery_fields rand t_id t_ts s Hsp)
    as (Bf & Br & Bc & Bsp & Bs & _).
  destruct (delete_head
              (mkRecord (toString t_id) LOTTERY
                 (rule_amount (selectRule rand)) t_ts
                 ("Lottery: " ++ label (selectRule rand))%string)
              s (playLottery rand t_id t_ts s)
              (toString_nonempty t_id) Br Habs) as (Cf & Cr & Cc & Csp & Cs).
  cbn [id amount] in Cf, Cr, Cc, Csp, Cs.
  rewrite step_delete in Cf, Cr, Cc, Csp, Cs.
  rewrite Cf, Cr, Cc, Csp, Bf, Bc, Bsp. repeat split. lia.
Qed.

(** One spin, drawn at 0.95 (the jackpot) and deleted. *)
Lemma lottery_then_delete_witness :
  let s := setSpinsAvailable (fun _ => 1) initialState in
  fund (run [OpLottery 0.95%float 7000 7000] s) = 60
  /\ fund (run [OpLottery 0.95%float 7000 7000; OpDelete "7000"] s) = 0
  /\ spinsAvailable
       (run [OpLottery 0.95%float 7000 7000; OpDelete "7000"] s) = 0.
Proof.
  intros s.
  destruct (lottery_then_delete s 0.95%float 7000 7000) as (A & _ & B & _);
    [reflexivity|reflexivity|].
  split; [reflexivity|]. split; [exact A|exact B].
Defined.

(** *** Sequences with fresh clock readings *)

Lemma step_NoDup (o : Op) (s : State) :
  NoDup (ids (records s)) -> freshId o s = true ->
  NoDup (ids (records (step o s))).
Proof.
  intros Hnd Hfresh.
  destruct o as [now|t_id t_ts|t_id t_ts|rand t_id t_ts|rid];
    cbn [freshId] in Hfresh.
  - rewrite step_start.
    destruct (startTimer_fields now s) as (_ & Hr & _). rewrite Hr. exact Hnd.
  - rewrite step_abandon.
    destruct (stopTimer_fields t_id t_ts s) as (_ & Hr & _). rewrite Hr.
    apply negb_true_iff, hasId_false in Hfresh.
    unfold ids. cbn [map id]. constructor; assumption.
  - rewrite step_expire.
    destruct (finishTimer_fields t_id t_ts s) as (_ & Hr & _). rewrite Hr.
    apply negb_true_iff, hasId_false in Hfresh.
    unfold ids. cbn [map id]. constructor; assumption.
  - rewrite step_lottery.
    destruct (Z.leb_spec (spinsAvailable s) 0) as [L|L].
    + rewrite playLottery_no_spin by exact L. exact Hnd.
    + destruct (playLottery_fields rand t_id t_ts s L) as (_ & Hr & _).
      rewrite Hr. apply negb_true_iff, hasId_false in Hfresh.
      unfold ids. cbn [map id]. constructor; assumption.
  - rewrite step_delete.
    destruct (selectRecord_fields rid s) as (_ & Srec & _).
    destruct (deleteRecord_cases (selectRecord rid s))
      as (_ & [(_ & Hr)|(sel & r & _ & _ & _ & Hr)]); rewrite Hr, Srec.
    + exact Hnd.
    + apply NoDup_ids_filter. exact Hnd.
Qed.

(** X5: from a reconciled state whose records have pairwise distinct ids,
    every sequence of operations in which the session operations come in
    order (each start with no session active, each abandon and expiry with
    one) and each new record is created on a clock reading that is not yet
    an id of the history ends in a reconciled state whose ids are again
    pairwise distinct. Deletions need no condition: with distinct ids a
    deletion reverses exactly what it removes. *)
Theorem orderly_ledger (ops : list Op) (s : State) :
  reconciled s ->
  NoDup (ids (records s)) ->
  orderly ops s = true ->
  reconciled (run ops s) /\ NoDup (ids (records (run ops s))).
Proof.
  revert s. induction ops as [|o ops IH]; intros s Hr Hnd Ho.
  - rewrite run_nil. split; assumption.
  - rewrite run_cons. cbn [orderly] in Ho.
    apply andb_prop in Ho. destruct Ho as (Ho & Hrest).
    apply andb_prop in Ho. destruct Ho as (Hg & Hf).
    apply IH; [|apply step_NoDup; assumption|exact Hrest].
    apply step_reconciled; [|exact Hr].
    destruct o; cbn [enabled sessionGuard] in *; try exact Hg.
    apply Nat.leb_le. apply idCount_NoDup. exact Hnd.
Qed.

(** A first run with increasing clock readings, deletions included. *)
Lemma orderly_ledger_witness :
  let ops := [OpStart 1000; OpAbandon 2000 2000;
              OpStart 3000; OpExpire 303000 303000;
              OpDelete "2000"; OpDelete "2000"; OpDelete "";
              OpStart 400000; OpExpire 700000 700001;
              OpDelete "303000"; OpStart 800000] in
  reconciled (run ops initialState)
  /\ fund (run ops initialState) = 20.
Proof.
  intros ops.
  destruct (orderly_ledger ops initialState) as (H & _).
  - reflexivity.
  - constructor.
  - vm_compute. reflexivity.
  - split; [exact H|vm_compute; reflexivity].
Defined.

(** *** What an operation out of order does to the ledger *)

Lemma drift_fields (s s' : State) (df ds dp : Z) :
  fund s' = fund s + df ->
  sumAmounts (records s') = sumAmounts (records s) + ds ->
  activePledge s' = activePledge s + dp ->
  drift s' = drift s + (df - ds - dp).
Proof. unfold drift. intros -> -> ->. lia. Qed.

Lemma activePledge_cases (s : State) :
  activePledge s = if sessionActive s then PLEDGE_AMOUNT else 0.
Proof.
  unfold activePledge, sessionActive.
  destruct (sessionStartTime s); reflexivity.
Qed.

Lemma activePledge_of (s : State) (v : option Z) :
  sessionStartTime s = v ->
  activePledge s = match v with Some _ => PLEDGE_AMOUNT | None => 0 end.
Proof. intros H. unfold activePledge. rewrite H. reflexivity. Qed.

(** X6: how each operation moves the difference between the fund and what
    history and active pledge account for, in any state. A start leaves it
    alone when no session is active and adds 10 when one is; an abandon or
    an expiry leaves it alone when a session is active and takes 10 away
    when none is; a draw, spin or no spin, leaves it alone; a deletion by a
    usable id that some record carries adds the amounts of the other
    records with that id, and any other deletion leaves it alone. *)
Theorem drift_of_step (s : State) :
  (forall now,
     drift (step (OpStart now) s)
     = drift s + (if sessionActive s then 10 else 0))
  /\ (forall t_id t_ts,
     drift (step (OpAbandon t_id t_ts) s)
     = drift s - (if sessionActive s then 0 else 10))
  /\ (forall t_id t_ts,
     drift (step (OpExpire t_id t_ts) s)
     = drift s - (if sessionActive s then 0 else 10))
  /\ (forall rand t_id t_ts,
     drift (step (OpLottery rand t_id t_ts) s) = drift s)
  /\ (forall rid r,
     rid <> "" ->
     find (fun x => String.eqb (id x) rid) (records s) = Some r ->
     drift (step (OpDelete rid) s)
     = drift s + (sharedAmounts rid (records s) - amount r))
  /\ (forall rid,
     rid = "" \/ hasId rid (records s) = false ->
     drift (step (OpDelete rid) s) = drift s).
Proof.
  pose proof (activePledge_cases s) as Hp.
  repeat split.
  - intros now. rewrite step_start.
    destruct (startTimer_fields now s) as (Hf & Hr & _ & _ & Hs & _).
    rewrite (drift_fields s _ PLEDGE_AMOUNT 0
               (PLEDGE_AMOUNT - activePledge s)).
    + rewrite Hp. constants. destruct (sessionActive s); lia.
    + exact Hf.
    + rewrite Hr. lia.
    + rewrite (activePledge_of _ _ Hs). lia.
  - intros t_id t_ts. rewrite step_abandon.
    destruct (stopTimer_fields t_id t_ts s) as (Hf & Hr & _ & _ & Hs & _).
    rewrite (drift_fields s _ (- PENALTY_TOTAL) RECORD_FAIL_AMOUNT
               (- activePledge s)).
    + rewrite Hp. constants. destruct (sessionActive s); lia.
    + rewrite Hf. lia.
    + rewrite Hr, sumAmounts_cons. cbn [amount]. lia.
    + rewrite (activePledge_of _ _ Hs). lia.
  - intros t_id t_ts. rewrite step_expire.
    destruct (finishTimer_fields t_id t_ts s) as (Hf & Hr & _ & _ & Hs & _).
    rewrite (drift_fields s _ 0 RECORD_SUCCESS_AMOUNT (- activePledge s)).
    + rewrite Hp. constants. destruct (sessionActive s); lia.
    + rewrite Hf. lia.
    + rewrite Hr, sumAmounts_cons. cbn [amount]. lia.
    + rewrite (activePledge_of _ _ Hs). lia.
  - intros rand t_id t_ts. rewrite step_lottery.
    destruct (Z.leb_spec (spinsAvailable s) 0) as [L|L].
    + rewrite playLottery_no_spin by exact L. reflexivity.
    + destruct (playLottery_fields rand t_id t_ts s L)
        as (Hf & Hr & _ & _ & Hs & _).
      rewrite (drift_fields s _ (rule_amount (selectRule rand))
                 (rule_amount (selectRule rand)) 0).
      * lia.
      * exact Hf.
      * rewrite Hr, sumAmounts_cons. cbn [amount]. lia.
      * unfold activePledge. rewrite Hs. lia.
  - intros rid r Hne Hfind. rewrite step_delete.
    destruct (selectRecord_fields rid s) as (Sf & Srec & Ss & Ssel).
    rewrite <- Srec in Hfind.
    destruct (deleteRecord_found _ rid r Ssel Hne Hfind) as (Df & Dr).
    destruct (deleteRecord_cases (selectRecord rid s)) as (Ds & _).
    rewrite Srec in Dr.
    rewrite (drift_fields s _ (- amount r)
               (- sharedAmounts rid (records s)) 0).
    + lia.
    + rewrite Df, Sf. lia.
    + rewrite Dr. unfold sharedAmounts.
      rewrite (sumAmounts_filter (fun x => String.eqb (id x) rid) (records s)).
      lia.
    + unfold activePledge. rewrite Ds, Ss. lia.
  - intros rid Hcase. rewrite step_delete.
    destruct (selectRecord_fields rid s) as (Sf & Srec & Ss & Ssel).
    assert (Hsame : drift (selectRecord rid s) = drift s).
    { rewrite (drift_fields s _ 0 0 0).
      - lia.
      - rewrite Sf. lia.
      - rewrite Srec. lia.
      - unfold activePledge. rewrite Ss. lia. }
    destruct Hcase as [E|Habs].
    + rewrite deleteRecord_unusable; [exact Hsame|].
      right. rewrite Ssel, E. reflexivity.
    + destruct (deleteRecord_cases (selectRecord rid s))
        as (Ds & [(Hf & Hr)|(sel & r & Hsel & Hfind & _)]).
      * rewrite <- Hsame.
        rewrite (drift_fields (selectRecord rid s) _ 0 0 0).
        -- lia.
        -- rewrite Hf. lia.
        -- rewrite Hr. lia.
        -- unfold activePledge. rewrite Ds. lia.
      * exfalso. rewrite Ssel in Hsel. injection Hsel as <-.
        rewrite Srec, (find_absent rid (records s) Habs) in Hfind.
        discriminate.
Qed.

(** Out of order on a first run: a second start adds 10, an abandon with
    no session takes 10; and a deletion by an id that a +10 and a -10
    record share adds the other record's amount. *)
Lemma drift_of_step_witness :
  drift (step (OpStart 2000) (startTimer 1000 initialState)) = 10
  /\ drift (step (OpAbandon 1000 1000) initialState) = -10
  /\ drift (step (OpDelete "5000")
              (run [OpStart 1000; OpExpire 5000 5000; OpStart 5000;
                    OpAbandon 5000 5000] initialState)) = 10.
Proof.
  split; [|split].
  - destruct (drift_of_step (startTimer 1000 initialState)) as (H & _).
    rewrite H. reflexivity.
  - destruct (drift_of_step initialState) as (_ & H & _).
    rewrite H. reflexivity.
  - destruct (drift_of_step
                (run [OpStart 1000; OpExpire 5000 5000; OpStart 5000;
                      OpAbandon 5000 5000] initialState))
      as (_ & _ & _ & _ & H & _).
    rewrite (H "5000" (mkRecord "5000" FAILURE (-10) 5000 "Given Up"));
      [reflexivity|discriminate|reflexivity].
Defined.

(** *** Counters and the session flag along any sequence *)

(** The fields of a state after one operation, whatever it is. *)
Lemma step_counters (o : Op) (s : State) :
  successCount (step o s)
  = successCount s
    + match o with OpExpire _ _ => 1 | _ => 0 end
  /\ (match o with
      | OpExpire _ _ =>
          spinsAvailable (step o s)
          = if Z.rem (successCount s + 1) SPINS_THRESHOLD =? 0
            then spinsAvailable s + 1 else spinsAvailable s
      | OpLottery _ _ _ =>
          spinsAvailable (step o s)
          = if spinsAvailable s <=? 0
            then spinsAvailable s else spinsAvailable s - 1
      | _ => spinsAvailable (step o s) = spinsAvailable s
      end).
Proof.
  destruct o as [now|t_id t_ts|t_id t_ts|rand t_id t_ts|rid].
  - rewrite step_start.
    destruct (startTimer_fields now s) as (_ & _ & Hc & Hs & _).
    rewrite Hc, Hs. split; [lia|reflexivity].
  - rewrite step_abandon.
    destruct (stopTimer_fields t_id t_ts s) as (_ & _ & Hc & Hs & _).
    rewrite Hc, Hs. split; [lia|reflexivity].
  - rewrite step_expire.
    destruct (finishTimer_fields t_id t_ts s) as (_ & _ & Hc & Hs & _).
    rewrite Hc, Hs. split; reflexivity.
  - rewrite step_lottery.
    destruct (Z.leb_spec (spinsAvailable s) 0) as [L|L].
    + rewrite playLottery_no_spin by exact L. split; [lia|reflexivity].
    + destruct (playLottery_fields rand t_id t_ts s L)
        as (_ & _ & Hc & Hs & _).
      rewrite Hc, Hs. split; [lia|reflexivity].
  - rewrite step_delete.
    destruct (selectRecord_others rid s) as (Sc & Ssp & _).
    destruct (deleteRecord_counters (selectRecord rid s)) as (Hc & Hs).
    rewrite Hc, Hs, Sc, Ssp. split; [lia|reflexivity].
Qed.

(** X7: along any sequence of operations successCount grows by exactly
    the number of expiries in it: no abandon, draw or deletion ever lowers
    or raises it. *)
Theorem successCount_counts_expiries (ops : list Op) (s : State) :
  successCount (run ops s) = successCount s + Z.of_nat (expiries ops)
  /\ successCount s <= successCount (run ops s).
Proof.
  assert (K : forall ops s,
    successCount (run ops s) = successCount s + Z.of_nat (expiries ops)).
  { clear. induction ops as [|o ops IH]; intros s.
    - rewrite run_nil. cbn. lia.
    - rewrite run_cons, IH.
      destruct (step_counters o s) as (Hc & _). rewrite Hc.
      unfold expiries. cbn [filter].
      destruct o; cbn [List.length]; lia. }
  split; [apply K|]. rewrite K. lia.
Qed.

(** X8: spinsAvailable stays between 0 and the spins earned: from a state
    with successCount >= 0 and 0 <= spinsAvailable <= successCount / 5 (a
    first run's state is one), every sequence of operations ends in such a
    state. Spins are never negative and never more than one per five
    successes. *)
Theorem spins_within_earned (ops : list Op) (s : State) :
  0 <= successCount s ->
  0 <= spinsAvailable s <= successCount s / SPINS_THRESHOLD ->
  0 <= spinsAvailable (run ops s)
       <= successCount (run ops s) / SPINS_THRESHOLD.
Proof.
  revert s. induction ops as [|o ops IH]; intros s Hc Hs.
  - rewrite run_nil. exact Hs.
  - rewrite run_cons.
    destruct (step_counters o s) as (Gc & Gs).
    apply IH.
    + rewrite Gc. destruct o; lia.
    + rewrite Gc. constants.
      destruct o as [now|t_id t_ts|t_id t_ts|rand t_id t_ts|rid];
        rewrite Gs; rewrite ?Z.add_0_r; try exact Hs.
      * destruct (Z.eqb_spec (Z.rem (successCount s + 1) 5) 0) as [E|E];
          rewrite Z.rem_mod_nonneg in E by lia;
          pose proof (Z.div_mod (successCount s + 1) 5);
          pose proof (Z.mod_pos_bound (successCount s + 1) 5);
          pose proof (Z.div_mod (successCount s) 5);
          pose proof (Z.mod_pos_bound (successCount s) 5); nia.
      * destruct (Z.leb_spec (spinsAvailable s) 0); lia.
Qed.

(** Six successes, one draw and a refused second draw on a first run: one
    spin earned, none left, none owed. *)
Lemma spins_within_earned_witness :
  let ops := successfulSessions
               [(1, 2, 2); (3, 4, 4); (5, 6, 6); (7, 8, 8); (9, 10, 10);
                (11, 12, 12)]
             ++ [OpLottery 0.1%float 13 13; OpLottery 0.1%float 14 14] in
  spinsAvailable (run ops initialState) = 0
  /\ successCount (run ops initialState) = 6.
Proof.
  intros ops.
  destruct (spins_within_earned ops initialState) as (A & B).
  - cbn. lia.
  - cbn. lia.
  - split; vm_compute; reflexivity.
Defined.

Lemma step_running (o : Op) (s : State) :
  isTimerRunning s = sessionActive s ->
  isTimerRunning (step o s) = sessionActive (step o s).
Proof.
  intros H. unfold sessionActive in *.
  destruct o as [now|t_id t_ts|t_id t_ts|rand t_id t_ts|rid].
  - rewrite step_start.
    destruct (startTimer_fields now s) as (_ & _ & _ & _ & Hs & Hi & _).
    rewrite Hs, Hi. reflexivity.
  - rewrite step_abandon.
    destruct (stopTimer_fields t_id t_ts s) as (_ & _ & _ & _ & Hs & Hi & _).
    rewrite Hs, Hi. reflexivity.
  - rewrite step_expire.
    destruct (finishTimer_fields t_id t_ts s)
      as (_ & _ & _ & _ & Hs & Hi & _).
    rewrite Hs, Hi. reflexivity.
  - rewrite step_lottery.
    destruct (Z.leb_spec (spinsAvailable s) 0) as [L|L].
    + rewrite playLottery_no_spin by exact L. exact H.
    + destruct (playLottery_fields rand t_id t_ts s L)
        as (_ & _ & _ & _ & Hs & Hi & _).
      rewrite Hs, Hi. exact H.
  - rewrite step_delete.
    destruct (selectRecord_fields rid s) as (_ & _ & Ss & _).
    destruct (selectRecord_others rid s) as (_ & _ & Si & _).
    destruct (deleteRecord_cases (selectRecord rid s)) as (Ds & _).
    destruct (deleteRecord_others (selectRecord rid s)) as (Di & _).
    rewrite Ds, Di, Ss, Si. exact H.
Qed.

Lemma reload_running (stored : Stored) (now : Z) :
  isTimerRunning (reload stored now) = sessionActive (reload stored now).
Proof.
  destruct stored as [| |parsed]; try reflexivity.
  destruct (p_sessionStartTime parsed) as [start|] eqn:Hp.
  - destruct (Z.eq_dec start 0) as [E|E].
    + subst start. destruct (reload_zero_start parsed now Hp) as (A & B).
      unfold sessionActive. rewrite A, B. reflexivity.
    + destruct (reload_session parsed now start Hp E) as (Hrun & Hidle).
      unfold sessionActive.
      destruct (Z.lt_ge_cases 0 (SESSION_DURATION - (now - start) / 1000))
        as [L|L].
      * destruct (Hrun L) as (A & _ & C). rewrite A, C. reflexivity.
      * destruct Hidle as (A & _ & C); [lia|]. rewrite A, C. reflexivity.
  - unfold reload, loadEffect. rewrite Hp. handlers. reflexivity.
Qed.

(** X9: whatever the store holds on load and whatever operations follow,
    in any order, the timer runs exactly when a session start time is
    recorded: the two state cells never disagree. *)
Theorem running_iff_session (stored : Stored) (now : Z) (ops : list Op) :
  let s := run ops (reload stored now) in
  isTimerRunning s = sessionActive s
  /\ (isTimerRunning s = true <-> sessionStartTime s <> None).
Proof.
  intros s.
  assert (H : isTimerRunning s = sessionActive s).
  { subst s. generalize (reload_running stored now).
    generalize (reload stored now). clear.
    induction ops as [|o ops IH]; intros s0 H.
    - rewrite run_nil. exact H.
    - rewrite run_cons. apply IH. apply step_running. exact H. }
  split; [exact H|]. rewrite H. unfold sessionActive.
  destruct (sessionStartTime s); split; congruence.
Qed.

(** *** Reloading *)

(** The state after a load of a document, field by field. *)
Lemma reload_state (parsed : Parsed) (now : Z) :
  reload (Document parsed) now
  = let '(session, running, secs) :=
      sessionOnLoad now (p_sessionStartTime parsed) in
    mkState (nullish (p_fund parsed) 0) (nullish (p_records parsed) [])
      (nullish (p_successCount parsed) 0)
      (nullish (p_spinsAvailable parsed) 0)
      session running secs None None None.
Proof.
  unfold reload, loadEffect, sessionOnLoad.
  destruct (p_sessionStartTime parsed) as [start|]; [|reflexivity].
  destruct (start =? 0); [reflexivity|].
  unfold resumeSession.
  destruct (SESSION_DURATION - (now - start) / 1000 >? 0); reflexivity.
Qed.

Lemma sessionOnLoad_again (now : Z) (stored : option Z) :
  sessionOnLoad now (fst (fst (sessionOnLoad now stored)))
  = sessionOnLoad now stored.
Proof.
  unfold sessionOnLoad.
  destruct stored as [start|]; [|reflexivity].
  destruct (start =? 0) eqn:Hz; [reflexivity|].
  destruct (SESSION_DURATION - (now - start) / 1000 >? 0) eqn:Hr;
    cbn [fst]; [|reflexivity].
  rewrite Hz, Hr. reflexivity.
Qed.

(** X10: a load, a save of what was loaded and a second load at the same
    instant give the state of the first load, for any stored document
    (fields missing or not) and for no document at all: loading is stable,
    and everything the component shows after a load is in what it saves. *)
Theorem reload_stable (stored : Stored) (now : Z) :
  reload (saveEffect (reload stored now)) now
  = match stored with
    | Document _ => reload stored now
    | _ => initialState
    end
  /\ (forall parsed, stored = Document parsed ->
      reload (saveEffect (reload stored now)) now = reload stored now).
Proof.
  assert (K : forall parsed,
    reload (saveEffect (reload (Document parsed) now)) now
    = reload (Document parsed) now).
  { intros parsed. rewrite (reload_state parsed now).
    pose proof (sessionOnLoad_again now (p_sessionStartTime parsed)) as A.
    destruct (sessionOnLoad now (p_sessionStartTime parsed))
      as [[session running] secs] eqn:E.
    cbn [fst] in A.
    unfold saveEffect, stringify, snapshot.
    cbn [fund records successCount spinsAvailable sessionStartTime
         a_fund a_target a_successCount a_spinsAvailable a_records
         a_sessionStartTime].
    rewrite reload_state.
    cbn [p_fund p_records p_successCount p_spinsAvailable
         p_sessionStartTime nullish].
    rewrite A. reflexivity. }
  split.
  - destruct stored as [| |parsed]; [reflexivity|reflexivity|apply K].
  - intros parsed ->. apply K.
Qed.

(** A document with a session started 100 seconds before the load and no
    other field. *)
Lemma reload_stable_witness :
  let stored := Document (mkParsed None None None None None (Some 1000)) in
  reload (saveEffect (reload stored 101000)) 101000 = reload stored 101000
  /\ timeLeft (reload stored 101000) = 200.
Proof.
  intros stored.
  destruct (reload_stable stored 101000) as (_ & H).
  split; [apply (H _ eq_refl)|reflexivity].
Defined.

Lemma reload_saved (s : State) (now : Z) :
  fund (reload (saveEffect s) now) = fund s
  /\ records (reload (saveEffect s) now) = records s
  /\ successCount (reload (saveEffect s) now) = successCount s
  /\ spinsAvailable (reload (saveEffect s) now) = spinsAvailable s
  /\ sessionStartTime (reload (saveEffect s) now)
     = fst (fst (sessionOnLoad now (sessionStartTime s))).
Proof.
  unfold saveEffect, stringify, snapshot. rewrite reload_state.
  cbn [p_fund p_records p_successCount p_spinsAvailable p_sessionStartTime
       nullish a_fund a_target a_successCount a_spinsAvailable a_records
       a_sessionStartTime].
  destruct (sessionOnLoad now (sessionStartTime s)) as [[session running] secs].
  repeat split.
Qed.

(** X11: the pledge of a session that lapsed while the application was
    closed stays in the fund. Saving a state with a session started at
    [start] and loading it when no time is left drops the session with no
    record and leaves the fund as it was, so the fund exceeds what the
    history accounts for by 10 more than before; a state that was
    reconciled comes back with fund = sum of amounts + 10 and no session.
    Loading while time is left, or a state without session, changes
    nothing of that. *)
Theorem reload_lapsed_keeps_pledge (s : State) (now : Z) :
  let s' := reload (saveEffect s) now in
  (forall start, sessionStartTime s = Some start ->
     SESSION_DURATION - (now - start) / 1000 <= 0 ->
     sessionStartTime s' = None
     /\ records s' = records s
     /\ successCount s' = successCount s
     /\ drift s' = drift s + PLEDGE_AMOUNT
     /\ (reconciled s -> fund s' = sumAmounts (records s') + PLEDGE_AMOUNT))
  /\ (forall start, sessionStartTime s = Some start -> start <> 0 ->
      0 < SESSION_DURATION - (now - start) / 1000 ->
      drift s' = drift s /\ (reconciled s -> reconciled s'))
  /\ (sessionStartTime s = None ->
      drift s' = drift s /\ (reconciled s -> reconciled s')).
Proof.
  intros s'.
  destruct (reload_saved s now) as (Hf & Hr & Hc & _ & Hs).
  fold s' in Hf, Hr, Hc, Hs.
  assert (D : drift s' = drift s + activePledge s - activePledge s').
  { unfold drift. rewrite Hf, Hr. lia. }
  assert (R : drift s' = drift s -> reconciled s -> reconciled s').
  { unfold reconciled, drift. intros E H. lia. }
  split; [|split].
  - intros start Hst Hrem.
    assert (Hn : sessionStartTime s' = None).
    { rewrite Hs, Hst. unfold sessionOnLoad.
      destruct (start =? 0); [reflexivity|].
      destruct (Z.gtb_spec (SESSION_DURATION - (now - start) / 1000) 0);
        [lia|reflexivity]. }
    assert (Hd : drift s' = drift s + PLEDGE_AMOUNT).
    { rewrite D. unfold activePledge. rewrite Hn, Hst. lia. }
    repeat split; try assumption.
    intros Hrec. unfold reconciled in Hrec. unfold drift in Hd.
    unfold activePledge in Hd at 1. rewrite Hn in Hd. lia.
  - intros start Hst Hz Hrem.
    assert (Hn : sessionStartTime s' = Some start).
    { rewrite Hs, Hst. unfold sessionOnLoad.
      destruct (Z.eqb_spec start 0); [contradiction|].
      destruct (Z.gtb_spec (SESSION_DURATION - (now - start) / 1000) 0);
        [reflexivity|lia]. }
    assert (Hd : drift s' = drift s).
    { rewrite D. unfold activePledge. rewrite Hn, Hst. lia. }
    split; [exact Hd|exact (R Hd)].
  - intros Hst.
    assert (Hn : sessionStartTime s' = None).
    { rewrite Hs, Hst. reflexivity. }
    assert (Hd : drift s' = drift s).
    { rewrite D. unfold activePledge. rewrite Hn, Hst. lia. }
    split; [exact Hd|exact (R Hd)].
Qed.

(** A first run with a session started at 1000 ms, closed and opened again
    300 seconds later: fund 10, empty history, no session. *)
Lemma reload_lapsed_keeps_pledge_witness :
  let s := startTimer 1000 initialState in
  reconciled s
  /\ fund (reload (saveEffect s) 301000) = 10
  /\ records (reload (saveEffect s) 301000) = []
  /\ sessionStartTime (reload (saveEffect s) 301000) = None
  /\ reconciled (reload (saveEffect s) 101000).
Proof.
  intros s.
  assert (Hs : reconciled s) by reflexivity.
  destruct (reload_lapsed_keeps_pledge s 301000) as (H & _).
  destruct (H 1000) as (A & B & _ & _ & C); [reflexivity|discriminate|].
  destruct (reload_lapsed_keeps_pledge s 101000) as (_ & H' & _).
  destruct (H' 1000) as (_ & D); [reflexivity|discriminate|reflexivity|].
  split; [exact Hs|]. split; [rewrite (C Hs), B; reflexivity|].
  split; [exact B|]. split; [exact A|exact (D Hs)].
Defined.

(** X12: a load that resumes a session shows at least one second left. The
    time left is at most the session duration when the stored start is not
    after [now], and more than the session duration when the stored start
    lies a second or more after [now] (a clock set back while the
    application was closed): the countdown then runs longer than a
    session. *)
Theorem reload_time_left (parsed : Parsed) (now start : Z) :
  p_sessionStartTime parsed = Some start ->
  isTimerRunning (reload (Document parsed) now) = true ->
  let shown := timeLeft (reload (Document parsed) now) in
  1 <= shown
  /\ shown = SESSION_DURATION - (now - start) / 1000
  /\ (start <= now -> shown <= SESSION_DURATION)
  /\ (now + 1000 <= start -> SESSION_DURATION < shown).
Proof.
  intros Hp Hrun shown. subst shown. rewrite reload_state in *.
  rewrite Hp in *. unfold sessionOnLoad in *.
  destruct (start =? 0); [discriminate|].
  destruct (Z.gtb_spec (SESSION_DURATION - (now - start) / 1000) 0) as [G|G];
    [|discriminate].
  cbn [timeLeft].
  pose proof (Z.div_mod (now - start) 1000).
  pose proof (Z.mod_pos_bound (now - start) 1000).
  constants. repeat split; lia.
Qed.

(** A stored start one minute in the future: six minutes on the clock. *)
Lemma reload_time_left_witness :
  let parsed := mkParsed (Some 10) None None None None (Some 160000) in
  timeLeft (reload (Document parsed) 100000) = 360
  /\ SESSION_DURATION < timeLeft (reload (Document parsed) 100000).
Proof.
  intros parsed.
  destruct (reload_time_left parsed 100000 160000 eq_refl eq_refl)
    as (_ & A & _ & B).
  split; [rewrite A; reflexivity|apply B; lia].
Defined.

(** *** The countdown *)







(** *** The time display *)

(** A property that holds, by evaluation, for the first [bound] numbers
    holds for every number below [bound]. *)
Lemma below_check (P : Z -> bool) (bound : Z) :
  forallb P (map Z.of_nat (List.seq 0 (Z.to_nat bound))) = true ->
  forall n, 0 <= n < bound -> P n = true.
Proof.
  intros H n Hn. rewrite forallb_forall in H. apply H.
  apply in_map_iff. exists (Z.to_nat n). split; [lia|].
  apply in_seq. lia.
Qed.

(** A number below 100 is shown as two characters that read back as the
    number. *)
Lemma padded_two (n : Z) :
  0 <= n < 100 ->
  exists c1 c2,
    padStart 2 "0" (toString n) = String c1 (String c2 "")
    /\ readNumber (String c1 (String c2 "")) = Some n.
Proof.
  intros Hn.
  assert (W : wellPadded n = true).
  { apply (below_check wellPadded 100); [vm_compute; reflexivity|exact Hn]. }
  unfold wellPadded in W. cbv zeta in W.
  apply andb_prop in W. destruct W as (W1 & W2).
  apply Nat.eqb_eq in W1.
  destruct (padStart 2 "0" (toString n)) as [|c1 [|c2 [|c3 rest]]];
    try discriminate.
  exists c1, c2. split; [reflexivity|].
  destruct (readNumber (String c1 (String c2 ""))) as [m|]; [|discriminate].
  apply Z.eqb_eq in W2. subst m. reflexivity.
Qed.

(** X14: for every time from 0 up to, not including, 6000 seconds (100
    minutes), [formatTime] shows five characters, two digits of minutes, a
    colon and two digits of seconds, which read back as [seconds / 60] and
    [seconds mod 60]; two such times that are shown alike are the same
    time. *)
Theorem formatTime_display (seconds : Z) :
  0 <= seconds < 6000 ->
  String.length (formatTime seconds) = 5%nat
  /\ String.get 2 (formatTime seconds) = Some ":"%char
  /\ readNumber (substring 0 2 (formatTime seconds)) = Some (seconds / 60)
  /\ readNumber (substring 3 2 (formatTime seconds)) = Some (seconds mod 60)
  /\ (forall other, 0 <= other < 6000 ->
      formatTime other = formatTime seconds -> other = seconds).
Proof.
  assert (K : forall n, 0 <= n < 6000 ->
    String.length (formatTime n) = 5%nat
    /\ String.get 2 (formatTime n) = Some ":"%char
    /\ readNumber (substring 0 2 (formatTime n)) = Some (n / 60)
    /\ readNumber (substring 3 2 (formatTime n)) = Some (n mod 60)).
  { intros n Hn. unfold formatTime. cbv zeta.
    rewrite Z.rem_mod_nonneg by lia.
    pose proof (Z.mod_pos_bound n 60) as Hmod.
    pose proof (Z.div_mod n 60) as Hdiv.
    destruct (padded_two (n / 60)) as (c1 & c2 & -> & Rm); [lia|].
    destruct (padded_two (n mod 60)) as (d1 & d2 & -> & Rs); [lia|].
    cbn [append String.length String.get substring].
    repeat split; assumption. }
  intros Hs. destruct (K seconds Hs) as (A & B & C & D).
  repeat split; try assumption.
  intros other Ho E. destruct (K other Ho) as (_ & _ & C' & D').
  rewrite E, C in C'. rewrite E, D in D'.
  injection C' as C'. injection D' as D'.
  rewrite (Z.div_mod other 60), (Z.div_mod seconds 60) by lia. lia.
Qed.

(** The display of 87 seconds. *)
Lemma formatTime_display_witness :
  formatTime 87 = "01:27"
  /\ String.length (formatTime 87) = 5%nat
  /\ readNumber (substring 3 2 (formatTime 87)) = Some 27.
Proof.
  destruct (formatTime_display 87) as (A & _ & _ & D & _); [lia|].
  split; [reflexivity|]. split; [exact A|exact D].
Defined.

(** *** The reward draw on any number *)

Lemma selectRule_cases (rand : float) :
  selectRule rand
  = if (rand <=? 0.4)%float then RULE_MINOR
    else if (rand <=? 0.7)%float then RULE_MEDIUM
    else if (rand <=? 0.8999999999999999)%float then RULE_BIG
    else if (rand <=? 0.9999999999999999)%float then RULE_JACKPOT
    else RULE_MINOR.
Proof. reflexivity. Qed.



(** *** Tiers as ranges of the random number *)

(** The order of binary64 numbers is transitive. *)
Lemma SFleb_trans (x y z : spec_float) :
  SFleb x y = true -> SFleb y z = true -> SFleb x z = true.
Proof.
  unfold SFleb, SFcompare.
  destruct x as [[]|[]| |[] mx ex], y as [[]|[]| |[] my ey],
    z as [[]|[]| |[] mz ez];
    try reflexivity; try discriminate;
    rewrite ?Pos.compare_cont_spec; unfold Pos.switch_Eq;
    destruct (Z.compare_spec ex ey), (Z.compare_spec ey ez),
      (Z.compare_spec ex ez);
    try reflexivity; try discriminate; try lia;
    destruct (Pos.compare_spec mx my), (Pos.compare_spec my mz),
      (Pos.compare_spec mx mz);
    cbn [CompOpp]; try reflexivity; try discriminate; try lia.
Qed.

Lemma leb_trans (x y z : float) :
  (x <=? y)%float = true -> (y <=? z)%float = true -> (x <=? z)%float = true.
Proof. rewrite !leb_spec. apply SFleb_trans. Qed.

(** What the comparisons of a number below 1 with the four running sums
    can be: each sum that is reached makes the later ones reached, and the
    last one is reached. *)
Lemma thresholds_chain (rand : float) :
  (rand <? 1)%float = true ->
  ((rand <=? 0.4)%float = true -> (rand <=? 0.7)%float = true)
  /\ ((rand <=? 0.7)%float = true ->
      (rand <=? 0.8999999999999999)%float = true)
  /\ (rand <=? 0.9999999999999999)%float = true.
Proof.
  intros H. repeat split.
  - intros L. apply (leb_trans _ _ _ L). reflexivity.
  - intros L. apply (leb_trans _ _ _ L). reflexivity.
  - exact (below_one_reaches_last rand H).
Qed.

(** X16: for a number below 1 the prize is decided by three thresholds:
    10 exactly when rand <= 0.4, 20 exactly when 0.4 < rand <= 0.7, 40
    exactly when 0.7 < rand <= 0.8999999999999999 (the binary64 sum
    0.4 + 0.3 + 0.2, just below 0.9), and 60 exactly when rand is above
    that sum. *)
Theorem prize_thresholds (rand : float) :
  (rand <? 1)%float = true ->
  let prize := rule_amount (selectRule rand) in
  (prize = 10 <-> (rand <=? 0.4)%float = true)
  /\ (prize = 20 <->
      (rand <=? 0.4)%float = false /\ (rand <=? 0.7)%float = true)
  /\ (prize = 40 <->
      (rand <=? 0.7)%float = false
      /\ (rand <=? 0.8999999999999999)%float = true)
  /\ (prize = 60 <-> (rand <=? 0.8999999999999999)%float = false).
Proof.
  intros H prize. subst prize.
  destruct (thresholds_chain rand H) as (C1 & C2 & C4).
  rewrite selectRule_cases, C4.
  destruct (rand <=? 0.4)%float eqn:E1.
  - rewrite (C1 eq_refl) in *. rewrite C2 by reflexivity.
    cbn [rule_amount RULE_MINOR].
    intuition (discriminate || lia).
  - destruct (rand <=? 0.7)%float eqn:E2.
    + rewrite C2 by reflexivity. cbn [rule_amount RULE_MEDIUM].
      intuition (discriminate || lia).
    + destruct (rand <=? 0.8999999999999999)%float eqn:E3;
        cbn [rule_amount RULE_BIG RULE_JACKPOT];
        intuition (discriminate || lia).
Qed.

(** The number 0.9 is above the third threshold: it draws the jackpot. *)
Lemma prize_thresholds_witness :
  rule_amount (selectRule 0.9%float) = 60
  /\ rule_amount (selectRule 0.8999999999999999%float) = 40.
Proof.
  destruct (prize_thresholds 0.9%float eq_refl) as (_ & _ & _ & A).
  destruct (prize_thresholds 0.8999999999999999%float eq_refl)
    as (_ & _ & B & _).
  split; [apply A; reflexivity|apply B; split; reflexivity].
Defined.

(** X17: within the range of [Math.random()] a larger number never draws
    a smaller prize: for rand1 <= rand2 < 1 the prize of rand1 is at most
    the prize of rand2. *)
Theorem prize_monotone (rand1 rand2 : float) :
  (rand1 <=? rand2)%float = true ->
  (rand2 <? 1)%float = true ->
  rule_amount (selectRule rand1) <= rule_amount (selectRule rand2).
Proof.
  intros H12 H2.
  destruct (thresholds_chain rand2 H2) as (C1 & C2 & C4).
  assert (T : forall c, (rand2 <=? c)%float = true ->
                        (rand1 <=? c)%float = true).
  { intros c L. exact (leb_trans _ _ _ H12 L). }
  rewrite !selectRule_cases. rewrite C4, (T _ C4).
  destruct (rand2 <=? 0.4)%float eqn:E1.
  - rewrite (T _ E1). reflexivity.
  - destruct (rand2 <=? 0.7)%float eqn:E2.
    + rewrite (T _ E2).
      destruct (rand1 <=? 0.4)%float; cbn; lia.
    + destruct (rand2 <=? 0.8999999999999999)%float eqn:E3.
      * rewrite (T _ E3).
        destruct (rand1 <=? 0.4)%float, (rand1 <=? 0.7)%float; cbn; lia.
      * destruct (rand1 <=? 0.4)%float, (rand1 <=? 0.7)%float,
          (rand1 <=? 0.8999999999999999)%float; cbn; lia.
Qed.

(** 0.41 and 0.69 draw the same prize, 0.69 and 0.71 a rising one. *)
Lemma prize_monotone_witness :
  rule_amount (selectRule 0.41%float) <= rule_amount (selectRule 0.69%float)
  /\ rule_amount (selectRule 0.69%float) <= rule_amount (selectRule 0.71%float).
Proof.
  split.
  - apply (prize_monotone 0.41%float 0.69%float); reflexivity.
  - apply (prize_monotone 0.69%float 0.71%float); reflexivity.
Defined.
